(** * Jump Cutter: the cloning playback controller

    A shallow embedding of
    [src/entry-points/content/ElementPlaybackControllerCloning/ElementPlaybackControllerCloning.ts]:
    the seek-duration prophet, the scheduler [maybeScheduleMaybeSeekOrSpeedup]
    and the decision engine [maybeSeekOrSpeedup].

    JavaScript numbers are IEEE 754 binary64 values; they are modelled by
    Rocq's primitive [float], whose operations are the same binary64
    operations (round to nearest, ties to even), so every comparison and
    every arithmetic step below is the one the script performs, [NaN], the
    infinities and the signed zeros included.

    The methods mutate the controller, the media element and the window's
    timers; here they are functions from the state before to the state
    after, the state being the controller's fields together with the
    parts of the host they touch. Event listeners and timer callbacks run
    one at a time, so a run of the script is a sequence of such steps.

    The definitions come first: the script's, then second readings in the
    words of the specification and concrete controllers for the examples.
    The facts follow, each numbered statement of the specification under
    its number. *)

From Stdlib Require Import ZArith List Bool Lia Uint63 Floats.
Import ListNotations.

(** ** JavaScript numeric primitives used by the controller *)

Module Js.
Local Open Scope float_scope.

(** [Number.MIN_VALUE], the smallest positive (subnormal) double. *)
Definition Number_MIN_VALUE : float := 0x1p-1074.

(** [x > y] and [x >= y]: false as soon as one side is [NaN]. *)
Definition gtb (x y : float) : bool := y <? x.
Definition geb (x y : float) : bool := y <=? x.

(** [ToBoolean] of a number: [0], [-0] and [NaN] are falsy. *)
Definition ToBoolean (x : float) : bool := negb (is_zero x || is_nan x).

(** [x || y] on numbers. *)
Definition or_else (x y : float) : float := if ToBoolean x then x else y.

Definition Math_abs (x : float) : float := abs x.

(** [Math.max(x, y)]: [NaN] if either argument is, and [+0] is larger
    than [-0]. *)
Definition Math_max (x y : float) : float :=
  if is_nan x || is_nan y then nan
  else if x <? y then y
  else if y <? x then x
  else if is_zero x && get_sign x then y
  else x.

(** An array length as a number (lengths are below [2^32], hence exact). *)
Definition Number_of_length (n : nat) : float :=
  of_uint63 (Uint63.of_Z (Z.of_nat n)).

(** [arr.reduce((acc, curr) => acc + curr)] with no initial value: the
    first element starts the accumulator, and an empty array throws a
    [TypeError] ([None]). *)
Definition Array_reduce_add (arr : list float) : option float :=
  match arr with
  | [] => None
  | first :: rest => Some (fold_left add rest first)
  end.

End Js.

Notation "x >? y" := (Js.gtb x y) (at level 70, no associativity) : float_scope.
Notation "x >=? y" := (Js.geb x y) (at level 70, no associativity) : float_scope.

(** ** Sign and finiteness of a binary64 value, read on its specification *)

Module Binary64.

Definition SFnonneg (x : spec_float) : bool :=
  match x with
  | S754_zero _ => true
  | S754_infinity s => negb s
  | S754_nan => false
  | S754_finite s _ _ => negb s
  end.

Definition SFfinite (x : spec_float) : bool :=
  match x with
  | S754_zero _ | S754_finite _ _ _ => true
  | _ => false
  end.

End Binary64.

(** ** The seek-duration prophet (lines 92-147) *)

Module Prophet.
Local Open Scope float_scope.

Definition seekDurationProphetHistoryLength : nat := 5.
Definition seekDurationProphetNoDataInitialAssumedDuration : float := 150.

Record SeekDurationProphet := mkProphet {
  history : list float;
  historyAverage : float;
  lastSeekStartTime : float
}.

(** The constructor; [now] is the value of [performance.now()] read by the
    field initializer of [lastSeekStartTime]. *)
Definition create (now : float) : SeekDurationProphet :=
  {| history := [];
     historyAverage := seekDurationProphetNoDataInitialAssumedDuration;
     lastSeekStartTime := now |}.

(** [onSeeking(e)], with [timeStamp = e.timeStamp]. *)
Definition onSeeking (timeStamp : float) (p : SeekDurationProphet)
  : SeekDurationProphet :=
  {| history := history p;
     historyAverage := historyAverage p;
     lastSeekStartTime := timeStamp |}.

(** [onSeeked(e)]: push, shift when the history got longer than the bound,
    then recompute the average over the whole history. [None] stands for
    the [TypeError] of [reduce] on an empty array. *)
Definition onSeeked (timeStamp : float) (p : SeekDurationProphet)
  : option SeekDurationProphet :=
  let seekDuration := timeStamp - lastSeekStartTime p in
  let pushed := history p ++ [seekDuration] in
  let hist :=
    if (seekDurationProphetHistoryLength <? length pushed)%nat
    then tl pushed else pushed in
  match Js.Array_reduce_add hist with
  | None => None
  | Some sum =>
      Some {| history := hist;
              historyAverage := sum / Js.Number_of_length (length hist);
              lastSeekStartTime := lastSeekStartTime p |}
  end.

Definition nextSeekDurationMs (p : SeekDurationProphet) : float :=
  historyAverage p.

(** The two events the prophet listens to, each with its [timeStamp]. *)
Inductive SeekEvent :=
| seeking (timeStamp : float)
| seeked (timeStamp : float).

Definition timeStampOf (e : SeekEvent) : float :=
  match e with seeking t => t | seeked t => t end.

Definition handleEvent (e : SeekEvent) (p : SeekDurationProphet)
  : option SeekDurationProphet :=
  match e with
  | seeking t => Some (onSeeking t p)
  | seeked t => onSeeked t p
  end.

(** The listeners run once per event, in dispatch order. *)
Fixpoint handleEvents (es : list SeekEvent) (p : SeekDurationProphet)
  : option SeekDurationProphet :=
  match es with
  | [] => Some p
  | e :: rest =>
      match handleEvent e p with
      | None => None
      | Some p' => handleEvents rest p'
      end
  end.

End Prophet.

(** ** The estimator, in the words of the specification

    The second reading of the prophet, to be compared with the one above:
    the estimate is the arithmetic mean of the last five samples, oldest
    evicted first, and 150 ms before any sample. *)

Module ProphetSpec.
Import Prophet.
Local Open Scope float_scope.

(** The samples a trace of events yields: every ['seeked'] contributes its
    time stamp minus the time stamp of the most recent ['seeking']
    ([reference] stands for it until a first ['seeking'] is seen). *)
Fixpoint observedDurations (reference : float) (es : list SeekEvent)
  : list float :=
  match es with
  | [] => []
  | seeking t :: rest => observedDurations t rest
  | seeked t :: rest => (t - reference) :: observedDurations reference rest
  end.

(** The last [n] elements of a list, in their order. *)
Definition lastN {A : Type} (n : nat) (l : list A) : list A :=
  skipn (length l - n) l.

(** The samples added up in the order they were taken. *)
Definition sum (l : list float) : float :=
  match l with
  | [] => 0
  | first :: rest => fold_left add rest first
  end.

Definition arithmeticMean (l : list float) : float :=
  sum l / Js.Number_of_length (length l).

Definition currentEstimateMs (samples : list float) : float :=
  match samples with
  | [] => 150
  | _ :: _ => arithmeticMean (lastN 5 samples)
  end.

(** Time stamps that are finite and never go back: each event's is at
    least the previous one's, the first at least [previous]. *)
Fixpoint timeStampsAscend (previous : float) (es : list SeekEvent) : bool :=
  match es with
  | [] => true
  | e :: rest =>
      is_finite (timeStampOf e) && (previous <=? timeStampOf e)
      && timeStampsAscend (timeStampOf e) rest
  end.

(** What it means for a number not to be negative: [NaN] is excluded,
    both zeros and [+Infinity] are not. *)
Definition notNegative (x : float) : Prop := (0 <=? x) = true.

(** The prophet's invariant, relative to the samples [ds] taken so far. *)
Definition tracks (p : SeekDurationProphet) (ds : list float) : Prop :=
  history p = lastN 5 ds /\ historyAverage p = currentEstimateMs ds.

(** The part of the state the argument follows: the reference time stamp
    is finite and not after [previous], no recorded sample is negative,
    and neither is the average. *)
Record healthy (previous : float) (p : SeekDurationProphet) : Prop := {
  healthy_reference_finite : is_finite (lastSeekStartTime p) = true;
  healthy_reference_before : (lastSeekStartTime p <=? previous) = true;
  healthy_history : Forall notNegative (history p);
  healthy_average : notNegative (historyAverage p);
  healthy_length : (length (history p) <= 5)%nat
}.

End ProphetSpec.

(** ** The controller (lines 149-911) *)

Module Controller.
Import Prophet.
Local Open Scope float_scope.

Definition DO_DESYNC_CORRECTION_EVERY_N_SPEED_SWITCHES : float := 20.

Inductive SpeedName := SOUNDED | SILENCE.

(** The [const enum WhatToDo] of [maybeSeekOrSpeedup]. *)
Inductive WhatToDo := NOTHING | SPEEDUP | SEEK.

Record ControllerSettings := mkSettings {
  volumeThreshold : float;
  soundedSpeed : float;
  marginBefore : float;
  marginAfter : float;
  enableDesyncCorrection : bool;
  silenceSpeed : float;
  isOppositeDay : bool
}.

(** [TimeRange] is the pair [[start, end]]. *)
Definition TimeRange : Type := float * float.

(** The properties of the [HTMLMediaElement] the controller reads and
    writes. *)
Record HTMLMediaElement := mkElement {
  currentTime : float;
  paused : bool;
  playbackRate : float
}.

(** The lookahead, as the controller sees it: the next silence range after
    a position and whether that range is still pending, or nothing. *)
Record Lookahead := mkLookahead {
  getNextSilenceRange : float -> option (TimeRange * bool)
}.

(** What a pending [setTimeout] will call: the controller's own
    callbacks, and [timerExpired], the callback of the timer that lodash's
    [throttle] keeps for [_throttledInitLookahead] (line 784) in the same
    table. *)
Inductive TimerHandler :=
| maybeSeekOrSpeedupBounded (seekTo seekScheduledTo : float)
| setSpeedSoundedLater
| devTimeoutDelayProbe
| throttleTimerExpired.

Record Timer := mkTimer {
  timerId : Z;
  timerHandler : TimerHandler;
  timerDelayMs : float
}.

Record PlaybackRateChange := mkRateChange {
  changeTime : float;
  changeValue : float;
  changeName : SpeedName
}.

(** The controller's fields, followed by the three pieces of the host the
    two methods touch: the audio context's clock and the window's table of
    pending timers with the next handle [setTimeout] will return.
    [timeSavedTracker], when present, is the list of the
    [onSilenceSkippingSeek] calls it received. *)
Record Controller := mkController {
  element : HTMLMediaElement;
  settings : ControllerSettings;
  lookahead : option Lookahead;
  seekDurationProphet : SeekDurationProphet;
  _didNotDoDesyncCorrectionForNSpeedSwitches : float;
  maybeSeekOrSpeedupTimeoutId : Z;
  _lastSilenceSkippingSeek : option TimeRange;
  _lastActualPlaybackRateChange : PlaybackRateChange;
  timeSavedTracker : option (list (float * float));
  audioContext_currentTime : float;
  pendingTimers : list Timer;
  nextTimerHandle : Z
}.

Definition set_element (e : HTMLMediaElement) (c : Controller) : Controller :=
  mkController e (settings c) (lookahead c) (seekDurationProphet c)
    (_didNotDoDesyncCorrectionForNSpeedSwitches c)
    (maybeSeekOrSpeedupTimeoutId c) (_lastSilenceSkippingSeek c)
    (_lastActualPlaybackRateChange c) (timeSavedTracker c)
    (audioContext_currentTime c) (pendingTimers c) (nextTimerHandle c).

Definition set_seekDurationProphet (p : SeekDurationProphet) (c : Controller)
  : Controller :=
  mkController (element c) (settings c) (lookahead c) p
    (_didNotDoDesyncCorrectionForNSpeedSwitches c)
    (maybeSeekOrSpeedupTimeoutId c) (_lastSilenceSkippingSeek c)
    (_lastActualPlaybackRateChange c) (timeSavedTracker c)
    (audioContext_currentTime c) (pendingTimers c) (nextTimerHandle c).

Definition set_didNotDoDesyncCorrectionForNSpeedSwitches (n : float)
  (c : Controller) : Controller :=
  mkController (element c) (settings c) (lookahead c) (seekDurationProphet c)
    n
    (maybeSeekOrSpeedupTimeoutId c) (_lastSilenceSkippingSeek c)
    (_lastActualPlaybackRateChange c) (timeSavedTracker c)
    (audioContext_currentTime c) (pendingTimers c) (nextTimerHandle c).

Definition set_maybeSeekOrSpeedupTimeoutId (id : Z) (c : Controller)
  : Controller :=
  mkController (element c) (settings c) (lookahead c) (seekDurationProphet c)
    (_didNotDoDesyncCorrectionForNSpeedSwitches c)
    id (_lastSilenceSkippingSeek c)
    (_lastActualPlaybackRateChange c) (timeSavedTracker c)
    (audioContext_currentTime c) (pendingTimers c) (nextTimerHandle c).

Definition set_lastSilenceSkippingSeek (r : option TimeRange) (c : Controller)
  : Controller :=
  mkController (element c) (settings c) (lookahead c) (seekDurationProphet c)
    (_didNotDoDesyncCorrectionForNSpeedSwitches c)
    (maybeSeekOrSpeedupTimeoutId c) r
    (_lastActualPlaybackRateChange c) (timeSavedTracker c)
    (audioContext_currentTime c) (pendingTimers c) (nextTimerHandle c).

Definition set_lastActualPlaybackRateChange (r : PlaybackRateChange)
  (c : Controller) : Controller :=
  mkController (element c) (settings c) (lookahead c) (seekDurationProphet c)
    (_didNotDoDesyncCorrectionForNSpeedSwitches c)
    (maybeSeekOrSpeedupTimeoutId c) (_lastSilenceSkippingSeek c)
    r (timeSavedTracker c)
    (audioContext_currentTime c) (pendingTimers c) (nextTimerHandle c).

Definition set_timeSavedTracker (t : option (list (float * float)))
  (c : Controller) : Controller :=
  mkController (element c) (settings c) (lookahead c) (seekDurationProphet c)
    (_didNotDoDesyncCorrectionForNSpeedSwitches c)
    (maybeSeekOrSpeedupTimeoutId c) (_lastSilenceSkippingSeek c)
    (_lastActualPlaybackRateChange c) t
    (audioContext_currentTime c) (pendingTimers c) (nextTimerHandle c).

Definition set_timers (ts : list Timer) (next : Z) (c : Controller)
  : Controller :=
  mkController (element c) (settings c) (lookahead c) (seekDurationProphet c)
    (_didNotDoDesyncCorrectionForNSpeedSwitches c)
    (maybeSeekOrSpeedupTimeoutId c) (_lastSilenceSkippingSeek c)
    (_lastActualPlaybackRateChange c) (timeSavedTracker c)
    (audioContext_currentTime c) ts next.

(** [window.setTimeout(handler, delay, ...args)]: the timer joins the
    table under a fresh handle, which is returned. *)
Definition setTimeout (h : TimerHandler) (delayMs : float) (c : Controller)
  : Z * Controller :=
  (nextTimerHandle c,
   set_timers (pendingTimers c ++ [mkTimer (nextTimerHandle c) h delayMs])
     (nextTimerHandle c + 1)%Z c).

(** [clearTimeout(id)]: the timer with that handle, if any, leaves the
    table; an unknown handle (such as the initial [-1]) changes nothing. *)
Definition clearTimeout (id : Z) (c : Controller) : Controller :=
  set_timers (filter (fun t => negb (timerId t =? id)%Z) (pendingTimers c))
    (nextTimerHandle c) c.

(** [timeSavedTracker?.onSilenceSkippingSeek(skipped, seekDuration)]. *)
Definition onSilenceSkippingSeek (skipped seekDuration : float)
  (c : Controller) : Controller :=
  match timeSavedTracker c with
  | None => c
  | Some calls =>
      set_timeSavedTracker (Some (calls ++ [(skipped, seekDuration)])) c
  end.

(** Modelled from the spec: [setPlaybackRateAndRememberIt] of
    [../playbackRateChangeTracking] is not among the sources; the
    specification's interface to the element is "write [playbackRate]",
    which is what this does. *)
Definition setPlaybackRateAndRememberIt (rate : float) (c : Controller)
  : Controller :=
  set_element
    (mkElement (currentTime (element c)) (paused (element c)) rate) c.

Section Engine.

(** Imported constants and helpers whose modules are not among the
    sources: the browser flag of [@/helpers/browserHasAudioDesyncBug], the
    build flag [IS_DEV_MODE], and [maybeClosestNonNormalSpeed] of
    [@/entry-points/content/helpers]. *)
Variable browserHasAudioDesyncBug : bool.
Variable IS_DEV_MODE : bool.
Variable maybeClosestNonNormalSpeed : float -> float -> float.

Definition getActualPlaybackRateForSpeed : float -> float -> float :=
  maybeClosestNonNormalSpeed.

(** [_setSpeedAndLog(speedName)] (lines 858-888); the development-mode
    assertion only reports. *)
Definition _setSpeedAndLog (speedName : SpeedName) (c : Controller)
  : Controller :=
  let speedVal :=
    getActualPlaybackRateForSpeed
      (match speedName with
       | SOUNDED => soundedSpeed (settings c)
       | SILENCE => silenceSpeed (settings c)
       end)
      (volumeThreshold (settings c)) in
  let c1 := setPlaybackRateAndRememberIt speedVal c in
  let elementSpeedSwitchedAt := audioContext_currentTime c1 in
  set_lastActualPlaybackRateChange
    (mkRateChange elementSpeedSwitchedAt speedVal speedName) c1.

(** *** [maybeSeekOrSpeedup]: the constants it computes (lines 564-619) *)

Definition mustCancelSeek (seekScheduledTo : float) (c : Controller) : bool :=
  let expectedCurrentTime := seekScheduledTo in
  (Js.Math_abs (currentTime (element c) - expectedCurrentTime) >? 0.5)
  || paused (element c).

Definition seekAmount (seekTo : float) (c : Controller) : float :=
  seekTo - currentTime (element c).

Definition expectedSeekDuration (c : Controller) : float :=
  nextSeekDurationMs (seekDurationProphet c) / 1000.

Definition realTimeLeftUntilDestinationAtNormalSpeed (seekTo : float)
  (c : Controller) : float :=
  seekAmount seekTo c / soundedSpeed (settings c).

Definition canSaveTimeBySeeking (seekTo : float) (c : Controller) : float :=
  realTimeLeftUntilDestinationAtNormalSpeed seekTo c - expectedSeekDuration c.

Definition playbackRateForSpeedup (c : Controller) : float :=
  silenceSpeed (settings c).

Definition realTimeLeftUntilDestinationAtSilenceSpeed (seekTo : float)
  (c : Controller) : float :=
  seekAmount seekTo c / playbackRateForSpeedup c.

Definition canSaveTimeBySpeedingUp (seekTo : float) (c : Controller) : float :=
  let canSaveTimeBySpeedingUp_ :=
    realTimeLeftUntilDestinationAtNormalSpeed seekTo c
    - realTimeLeftUntilDestinationAtSilenceSpeed seekTo c in
  if browserHasAudioDesyncBug && enableDesyncCorrection (settings c) then
    let oneSpeedupDesyncCorrectionTimeCost :=
      expectedSeekDuration c / DO_DESYNC_CORRECTION_EVERY_N_SPEED_SWITCHES in
    canSaveTimeBySpeedingUp_ - oneSpeedupDesyncCorrectionTimeCost
  else canSaveTimeBySpeedingUp_.

(** The closure [needForceSeekForDesyncCorrection] (lines 621-652). *)
Definition needForceSeekForDesyncCorrection (seekTo : float) (c : Controller)
  : bool :=
  if browserHasAudioDesyncBug && enableDesyncCorrection (settings c) then
    let howMuchWeWantDesyncCorrection :=
      _didNotDoDesyncCorrectionForNSpeedSwitches c
      / DO_DESYNC_CORRECTION_EVERY_N_SPEED_SWITCHES in
    let howMuchWeWantToSeek :=
      realTimeLeftUntilDestinationAtNormalSpeed seekTo c
      / Js.or_else (expectedSeekDuration c) Js.Number_MIN_VALUE in
    let howMuchWeDontWantToSeek := 1 - howMuchWeWantToSeek in
    if howMuchWeWantDesyncCorrection >=? howMuchWeDontWantToSeek then true
    else false
  else false.

Definition ifNeedForceSeekThenSeekElse (seekTo : float) (c : Controller)
  (else_ : WhatToDo) : WhatToDo :=
  if needForceSeekForDesyncCorrection seekTo c then SEEK else else_.

Definition expectedMinimumSetTimeoutDelay : float := 1 / 240.

Definition speedupCanOvershoot (seekTo : float) (c : Controller) : bool :=
  realTimeLeftUntilDestinationAtSilenceSpeed seekTo c
  <=? expectedMinimumSetTimeoutDelay.

(** The immediately-invoked closure that computes [whatToDo] (lines
    659-720). In a development build it also arms a timer that measures
    the real [setTimeout] delay, so the closure returns the controller
    along with the verdict. *)
Definition computeWhatToDo (seekTo : float) (c : Controller)
  : WhatToDo * Controller :=
  if canSaveTimeBySeeking seekTo c >? canSaveTimeBySpeedingUp seekTo c then
    if canSaveTimeBySeeking seekTo c <=? 0 then
      (ifNeedForceSeekThenSeekElse seekTo c NOTHING, c)
    else (SEEK, c)
  else if canSaveTimeBySpeedingUp seekTo c <=? 0 then
    (ifNeedForceSeekThenSeekElse seekTo c NOTHING, c)
  else
    let c1 :=
      if IS_DEV_MODE && speedupCanOvershoot seekTo c
      then snd (setTimeout devTimeoutDelayProbe 0 c)
      else c in
    if speedupCanOvershoot seekTo c then
      if canSaveTimeBySeeking seekTo c >? 0 then (SEEK, c1)
      else (ifNeedForceSeekThenSeekElse seekTo c NOTHING, c1)
    else (ifNeedForceSeekThenSeekElse seekTo c SPEEDUP, c1).

Definition whatToDo (seekTo : float) (c : Controller) : WhatToDo :=
  fst (computeWhatToDo seekTo c).

(** *** [maybeSeekOrSpeedup] (lines 562-749) *)

Definition maybeSeekOrSpeedup (seekTo seekScheduledTo : float) (c : Controller)
  : Controller :=
  if mustCancelSeek seekScheduledTo c then c
  else
    let currentTime_ := currentTime (element c) in
    let '(verdict, c1) := computeWhatToDo seekTo c in
    match verdict with
    | SEEK =>
        let c2 :=
          set_element
            (mkElement seekTo (paused (element c1)) (playbackRate (element c1)))
            c1 in
        let c3 := set_didNotDoDesyncCorrectionForNSpeedSwitches 0 c2 in
        let c4 :=
          onSilenceSkippingSeek (seekTo - currentTime_)
            (expectedSeekDuration c) c3 in
        set_lastSilenceSkippingSeek (Some (seekScheduledTo, seekTo)) c4
    | SPEEDUP =>
        let c2 := _setSpeedAndLog SILENCE c1 in
        let c3 :=
          snd (setTimeout setSpeedSoundedLater
                 (realTimeLeftUntilDestinationAtSilenceSpeed seekTo c * 1000)
                 c2) in
        set_didNotDoDesyncCorrectionForNSpeedSwitches
          (_didNotDoDesyncCorrectionForNSpeedSwitches c3 + 1) c3
    | NOTHING => c1
    end.

(** *** [maybeScheduleMaybeSeekOrSpeedup] (lines 457-554) *)

Definition maybeScheduleMaybeSeekOrSpeedup (c : Controller) : Controller :=
  let currentTime_ := currentTime (element c) in
  let maybeUpcomingSilenceRange :=
    match lookahead c with
    | None => None
    | Some l => getNextSilenceRange l currentTime_
    end in
  match maybeUpcomingSilenceRange with
  | None => c
  | Some ((silenceStart, silenceEnd), isTheUpcomingSilenceRangeStillPending) =>
      if isOppositeDay (settings c) && isTheUpcomingSilenceRangeStillPending
      then c
      else
        let seekAt := Js.Math_max silenceStart currentTime_ in
        let seekTo :=
          if isTheUpcomingSilenceRangeStillPending
          then Js.Math_max seekAt (silenceEnd - 3)
          else silenceEnd in
        let amountToSkip := seekTo - currentTime_ in
        if isTheUpcomingSilenceRangeStillPending && (amountToSkip <? 3)
        then c
        else
          let seekInVideoTime := seekAt - currentTime_ in
          let seekInRealTime := seekInVideoTime / soundedSpeed (settings c) in
          let c1 := clearTimeout (maybeSeekOrSpeedupTimeoutId c) c in
          if seekInRealTime <=? 0 then maybeSeekOrSpeedup seekTo seekAt c1
          else
            let '(id, c2) :=
              setTimeout (maybeSeekOrSpeedupBounded seekTo seekAt)
                (seekInRealTime * 1000) c1 in
            set_maybeSeekOrSpeedupTimeoutId id c2
  end.

(** *** Timers firing, and the controller's reactions *)

(** The throttle's timer, when no call of [_throttledInitLookahead] was
    put off, expires without calling anything of the controller; its
    expiry with a call put off, which runs [_initLookahead], is an event
    of the lifecycle below ([throttledInitLookaheadRuns]). *)
Definition runTimerHandler (h : TimerHandler) (c : Controller) : Controller :=
  match h with
  | maybeSeekOrSpeedupBounded seekTo seekScheduledTo =>
      maybeSeekOrSpeedup seekTo seekScheduledTo c
  | setSpeedSoundedLater => _setSpeedAndLog SOUNDED c
  | devTimeoutDelayProbe => c
  | throttleTimerExpired => c
  end.

(** A one-shot timer leaves the table when it fires. *)
Definition fireTimer (t : Timer) (c : Controller) : Controller :=
  runTimerHandler (timerHandler t) (clearTimeout (timerId t) c).

(** What can happen to a running controller: a ['timeupdate'] of the
    element, one of the pending timers firing, a ['seeking'] or ['seeked']
    event reaching the prophet, and a speed switch. *)
Inductive Reaction :=
| onTimeupdate
| onTimer (t : Timer)
| onSeekEvent (e : SeekEvent)
| onSetSpeed (speedName : SpeedName).

Definition react (r : Reaction) (c : Controller) : Controller :=
  match r with
  | onTimeupdate => maybeScheduleMaybeSeekOrSpeedup c
  | onTimer t => fireTimer t c
  | onSeekEvent e =>
      match handleEvent e (seekDurationProphet c) with
      | Some p => set_seekDurationProphet p c
      | None => c
      end
  | onSetSpeed speedName => _setSpeedAndLog speedName c
  end.

End Engine.

End Controller.

(** ** The engine's rules, in the words of the specification

    Second readings, to be compared with the closures of
    [maybeSeekOrSpeedup] above. *)

Module EngineSpec.
Import Controller.
Local Open Scope float_scope.

Section DecisionRule.

Variables canSaveTimeBySeeking canSaveTimeBySpeedingUp : float.
Variable timeAtSilenceSpeed : float.
Variable forcedSeek : bool.

(** "[v] (or forced SEEK)". *)
Definition orForcedSeek (v : WhatToDo) : WhatToDo :=
  if forcedSeek then SEEK else v.

(** The ordered rule with the forced seek overriding [NOTHING] verdicts
    only: step 4 is [SPEEDUP] whatever the desync test says. *)
Definition decisionRuleSparingSpeedup : WhatToDo :=
  if canSaveTimeBySeeking >? canSaveTimeBySpeedingUp then
    if canSaveTimeBySeeking >? 0 then SEEK else orForcedSeek NOTHING
  else if canSaveTimeBySpeedingUp <=? 0 then orForcedSeek NOTHING
  else if timeAtSilenceSpeed <=? 1 / 240 then
    if canSaveTimeBySeeking >? 0 then SEEK else orForcedSeek NOTHING
  else SPEEDUP.

(** The same rule with the forced seek overriding the [SPEEDUP] of step 4
    as well. *)
Definition decisionRule : WhatToDo :=
  if canSaveTimeBySeeking >? canSaveTimeBySpeedingUp then
    if canSaveTimeBySeeking >? 0 then SEEK else orForcedSeek NOTHING
  else if canSaveTimeBySpeedingUp <=? 0 then orForcedSeek NOTHING
  else if timeAtSilenceSpeed <=? 1 / 240 then
    if canSaveTimeBySeeking >? 0 then SEEK else orForcedSeek NOTHING
  else orForcedSeek SPEEDUP.

End DecisionRule.

(** The desync test: evaluated only when the workaround is active, and
    then [desyncBudget / 20 >= 1 - timeAtNormalSpeed / max(expectedSeekDuration, epsilon)],
    [epsilon] being [Number.MIN_VALUE]. *)
Definition forcedSeekTest (workaroundActive : bool)
  (desyncBudget timeAtNormalSpeed expectedSeekDuration : float) : bool :=
  workaroundActive
  && (desyncBudget / 20
      >=? 1 - timeAtNormalSpeed
              / Js.Math_max expectedSeekDuration Js.Number_MIN_VALUE).

(** The scheduler's guards: the pair [(seekTo, seekAt)] it goes on with,
    or nothing when it returns early, because no next range is known,
    because the range is pending in opposite-day mode, or because the part
    of a pending range that could be skipped is shorter than 3. *)
Definition skipToSchedule (c : Controller) : option (float * float) :=
  let position := currentTime (element c) in
  match lookahead c with
  | None => None
  | Some l =>
      match getNextSilenceRange l position with
      | None => None
      | Some ((rangeStart, rangeEnd), pending) =>
          let seekAt := Js.Math_max rangeStart position in
          let seekTo :=
            if pending then Js.Math_max seekAt (rangeEnd - 3) else rangeEnd in
          if isOppositeDay (settings c) && pending then None
          else if pending && (seekTo - position <? 3) then None
          else Some (seekTo, seekAt)
      end
  end.

(** Every pending timer was handed out by [setTimeout]: its handle is
    below the next one. *)
Definition handlesAreFresh (c : Controller) : Prop :=
  Forall (fun t => (timerId t < nextTimerHandle c)%Z) (pendingTimers c).

(** The three early returns of the scheduler, spelled out. *)
Definition returnsEarly (c : Controller) : Prop :=
  lookahead c = None
  \/ (exists l, lookahead c = Some l
        /\ getNextSilenceRange l (currentTime (element c)) = None)
  \/ (exists l range,
        lookahead c = Some l
        /\ getNextSilenceRange l (currentTime (element c)) = Some (range, true)
        /\ (isOppositeDay (settings c) = true
            \/ (Js.Math_max
                  (Js.Math_max (fst range) (currentTime (element c)))
                  (snd range - 3)
                - currentTime (element c) <? 3) = true)).

Section BudgetSteps.

Variable browserHasAudioDesyncBug : bool.
Variable IS_DEV_MODE : bool.
Variable maybeClosestNonNormalSpeed : float -> float -> float.

(** How the desync budget may move from [c] to [c']: not at all, or by an
    invocation of the engine that was not stale and whose verdict was
    SEEK, which sets it to 0 along with [currentTime], or SPEEDUP, which
    adds 1 to it. *)
Definition budgetStep (c c' : Controller) : Prop :=
  _didNotDoDesyncCorrectionForNSpeedSwitches c'
  = _didNotDoDesyncCorrectionForNSpeedSwitches c
  \/ exists seekTo seekScheduledTo c0,
       _didNotDoDesyncCorrectionForNSpeedSwitches c0
       = _didNotDoDesyncCorrectionForNSpeedSwitches c
       /\ mustCancelSeek seekScheduledTo c0 = false
       /\ c' = maybeSeekOrSpeedup browserHasAudioDesyncBug IS_DEV_MODE
                 maybeClosestNonNormalSpeed seekTo seekScheduledTo c0
       /\ ((whatToDo browserHasAudioDesyncBug IS_DEV_MODE seekTo c0 = SEEK
            /\ _didNotDoDesyncCorrectionForNSpeedSwitches c' = 0
            /\ currentTime (element c') = seekTo)
           \/ (whatToDo browserHasAudioDesyncBug IS_DEV_MODE seekTo c0
               = SPEEDUP
               /\ _didNotDoDesyncCorrectionForNSpeedSwitches c'
                  = _didNotDoDesyncCorrectionForNSpeedSwitches c + 1)).

End BudgetSteps.

End EngineSpec.

(** ** Concrete controllers, for the examples below *)

Module Scenarios.
Import Prophet Controller.
Local Open Scope float_scope.

(** A prophet that has seen one seek, of [estimateMs] milliseconds. *)
Definition prophetAfterOneSeek (estimateMs : float) : SeekDurationProphet :=
  mkProphet [estimateMs] estimateMs 0.

Definition settingsWith (sounded silence : float) (desyncCorrection : bool)
  (oppositeDay : bool) : ControllerSettings :=
  mkSettings 0 sounded 0 0 desyncCorrection silence oppositeDay.

(** A playing element at [position], at rate 1. *)
Definition playingAt (position : float) : HTMLMediaElement :=
  mkElement position false 1.

(** A controller with no timer pending and none armed so far. *)
Definition controllerWith (e : HTMLMediaElement) (s : ControllerSettings)
  (l : option Lookahead) (p : SeekDurationProphet) (desyncBudget : float)
  : Controller :=
  mkController e s l p desyncBudget (-1) None (mkRateChange 0 1 SOUNDED)
    None 0 [] 1.

(** A lookahead that always reports the same range. *)
Definition lookaheadReporting (range : TimeRange) (pending : bool)
  : Lookahead :=
  mkLookahead (fun _ => Some (range, pending)).

(** [maybeClosestNonNormalSpeed] taken as leaving the speed as it is. *)
Definition speedUnchanged (speed volumeThreshold : float) : float := speed.

(** Five seconds of silence ahead, a seek expected to take nine, desync
    correction on and ten speedups since the last seek. *)
Definition tenSpeedupsWithoutSeek : Controller :=
  controllerWith (playingAt 15) (settingsWith 1 4 true false) None
    (prophetAfterOneSeek 9000) 10.

(** A ['seeked'] stamped one second before the ['seeking'] it follows. *)
Definition backwardTimeStamps : list SeekEvent := [seeking 2000; seeked 1000].

Definition prophetAfterBackwardTimeStamps : SeekDurationProphet :=
  mkProphet [-1000] (-1000) 2000.

(** An element at 19 with the prophet above, desync correction on, no
    speedup since the last seek. *)
Definition negativeEstimate : Controller :=
  controllerWith (playingAt 19) (settingsWith 1 4 true false) None
    prophetAfterBackwardTimeStamps 0.

(** Ten seconds of final silence starting at the current position, and
    seeks expected to take three: speeding up saves more than seeking. *)
Definition silenceAhead : Controller :=
  controllerWith (playingAt 10) (settingsWith 1 4 false false)
    (Some (lookaheadReporting (10, 20) false)) (prophetAfterOneSeek 3000) 0.

(** An element found at 11 by a call scheduled for position 10. *)
Definition driftedAway : Controller :=
  controllerWith (playingAt 11) (settingsWith 1 4 false false) None
    (prophetAfterOneSeek 100) 0.

(** Pending ranges: in opposite-day mode, a long one and a short one. *)
Definition oppositeDayPending : Controller :=
  controllerWith (playingAt 10) (settingsWith 1 4 false true)
    (Some (lookaheadReporting (10, 20) true)) (prophetAfterOneSeek 100) 0.

Definition pendingLong : Controller :=
  controllerWith (playingAt 10) (settingsWith 1 4 false false)
    (Some (lookaheadReporting (10, 20) true)) (prophetAfterOneSeek 100) 0.

Definition pendingShort : Controller :=
  controllerWith (playingAt 10) (settingsWith 1 4 false false)
    (Some (lookaheadReporting (10, 12) true)) (prophetAfterOneSeek 100) 0.

(** Final silence from 10 to 20 seen from position 5: the first
    ['timeupdate'] arms a timer; the element is then found at 5.25, or at
    the start of the silence. *)
Definition silenceLater : Controller :=
  controllerWith (playingAt 5) (settingsWith 1 4 false false)
    (Some (lookaheadReporting (10, 20) false)) (prophetAfterOneSeek 100) 0.

Definition armedOnce : Controller :=
  maybeScheduleMaybeSeekOrSpeedup false false speedUnchanged silenceLater.

Definition theArmedTimer : Timer :=
  mkTimer 1 (maybeSeekOrSpeedupBounded 20 10) 5000.

Definition aQuarterSecondLater : Controller :=
  set_element (playingAt 5.25) armedOnce.

Definition atTheSilence : Controller :=
  set_element (playingAt 10) armedOnce.

(** Six seeks, of 10 to 60 ms, and a seek begun twice. *)
Definition sixSeeks : list SeekEvent :=
  [seeking 1000; seeked 1010; seeking 2000; seeked 2020;
   seeking 3000; seeked 3030; seeking 4000; seeked 4040;
   seeking 5000; seeked 5050; seeking 6000; seeked 6060].

Definition seekBegunTwice : list SeekEvent :=
  [seeking 1000; seeking 1500; seeked 1600].

(** Nothing to gain: silence played at the sounded speed, and seeks
    expected to take a minute. *)
Definition nothingToGain : Controller :=
  controllerWith (playingAt 10) (settingsWith 1 1 false false) None
    (prophetAfterOneSeek 60000) 0.

(** Ten seconds of silence ahead, seeks of half a second, and a tracker
    of the time saved that has seen no seek yet. *)
Definition trackedSeek : Controller :=
  set_timeSavedTracker (Some [])
    (controllerWith (playingAt 10) (settingsWith 1 4 false false) None
       (prophetAfterOneSeek 500) 0).

End Scenarios.

(** ** The other listeners, the settings and the end of [init]
    (lines 245-247, 265-299, 444-449, 774-856) *)

Module Lifecycle.
Import Prophet Controller.
Local Open Scope float_scope.

(** [x !== y] on numbers: true as soon as one side is [NaN], false on
    the two zeros. *)
Definition strictNotEqual (x y : float) : bool := negb (x =? y).

Definition set_settings (s : ControllerSettings) (c : Controller)
  : Controller :=
  mkController (element c) s (lookahead c) (seekDurationProphet c)
    (_didNotDoDesyncCorrectionForNSpeedSwitches c)
    (maybeSeekOrSpeedupTimeoutId c) (_lastSilenceSkippingSeek c)
    (_lastActualPlaybackRateChange c) (timeSavedTracker c)
    (audioContext_currentTime c) (pendingTimers c) (nextTimerHandle c).

Definition set_lookahead (l : option Lookahead) (c : Controller)
  : Controller :=
  mkController (element c) (settings c) l (seekDurationProphet c)
    (_didNotDoDesyncCorrectionForNSpeedSwitches c)
    (maybeSeekOrSpeedupTimeoutId c) (_lastSilenceSkippingSeek c)
    (_lastActualPlaybackRateChange c) (timeSavedTracker c)
    (audioContext_currentTime c) (pendingTimers c) (nextTimerHandle c).

(** The controller with the fields and the element property that only
    the settings and [init] touch. *)
Record Instance := mkInstance {
  controller : Controller;
  element_defaultPlaybackRate : float;
  initialized : bool;
  _pendingSettingsUpdates : option ControllerSettings
}.

Definition isInitialized (i : Instance) : bool := initialized i.

Definition onController (f : Controller -> Controller) (i : Instance)
  : Instance :=
  mkInstance (f (controller i)) (element_defaultPlaybackRate i)
    (initialized i) (_pendingSettingsUpdates i).

(** Modelled from the spec: [setDefaultPlaybackRateAndRememberIt] of
    [../playbackRateChangeTracking] is not among the sources; like its
    sibling for [playbackRate] it is taken to write the element's
    property. *)
Definition setDefaultPlaybackRateAndRememberIt (rate : float) (i : Instance)
  : Instance :=
  mkInstance (controller i) rate (initialized i) (_pendingSettingsUpdates i).

(** [_initLookahead()] (lines 774-783); [l] is the [Lookahead] the
    constructor call yields. *)
Definition _initLookahead (l : Lookahead) (c : Controller) : Controller :=
  set_lookahead (Some l) c.

(** The timer of the throttle around [_initLookahead]. *)
Definition isThrottleTimer (t : Timer) : bool :=
  match timerHandler t with
  | throttleTimerExpired => true
  | _ => false
  end.

(** The throttle's [timerId]: lodash holds the handle of its timer from
    the [setTimeout] that arms it until the timer fires or is cleared,
    that is while the timer is pending. *)
Definition throttleTimerId (c : Controller) : option Z :=
  option_map timerId (find isThrottleTimer (pendingTimers c)).

(** [_throttledInitLookahead()], that is
    [throttle(this._initLookahead, 1000)] of lodash (line 784), a library
    function that is not among the sources; its clock is not modelled.
    When lodash finds the call due ([shouldInvoke]), it arms its timer for
    1000 ms, after clearing the one still pending if there is one, and
    calls [_initLookahead] at once: [rebuilt] is then the lookahead built.
    When the call is not due ([rebuilt] is [None]) it is put off to the
    expiry of the timer, which is armed unless it is pending already. *)
Definition _throttledInitLookahead (rebuilt : option Lookahead)
  (c : Controller) : Controller :=
  match rebuilt with
  | Some l =>
      let c1 :=
        match throttleTimerId c with
        | Some id => clearTimeout id c
        | None => c
        end in
      _initLookahead l (snd (setTimeout throttleTimerExpired 1000 c1))
  | None =>
      match throttleTimerId c with
      | Some _ => c
      | None => snd (setTimeout throttleTimerExpired 1000 c)
      end
  end.

(** The expiry of the throttle's timer with a call put off (lodash's
    [trailingEdge]): the timer leaves the table and [_initLookahead]
    runs, building [l]. Without a pending timer of the throttle there is
    no such expiry. *)
Definition trailingInitLookahead (l : Lookahead) (c : Controller)
  : Controller :=
  match throttleTimerId c with
  | Some id => _initLookahead l (clearTimeout id c)
  | None => c
  end.

(** The expiry of the throttle's timer when lodash finds it early (its
    clock went back): the timer is armed again for what is left of the
    wait. *)
Definition restartThrottleTimer (remainingWaitMs : float) (c : Controller)
  : Controller :=
  match throttleTimerId c with
  | Some id =>
      snd (setTimeout throttleTimerExpired remainingWaitMs
             (clearTimeout id c))
  | None => c
  end.

(** [destroyAndThrottledInitLookahead()] (lines 785-789). *)
Definition destroyAndThrottledInitLookahead (rebuilt : option Lookahead)
  (c : Controller) : Controller :=
  _throttledInitLookahead rebuilt (set_lookahead None c).

(** The listener of ['emptied'] (lines 294-297). *)
Definition onOldSrcGone (c : Controller) : Controller :=
  set_lookahead None c.

(** The listener of ['loadstart'] (lines 272-286); [now] is what
    [performance.now()] gives the new prophet. *)
Definition onNewSrc (rebuilt : option Lookahead) (now : float)
  (c : Controller) : Controller :=
  set_seekDurationProphet (create now)
    (destroyAndThrottledInitLookahead rebuilt c).

Section Settings.

Variable browserHasAudioDesyncBug : bool.
Variable IS_DEV_MODE : bool.
Variable maybeClosestNonNormalSpeed : float -> float -> float.

(** [lookaheadSettingsChanged] of [_setStateAccordingToNewSettings]. *)
Definition lookaheadSettingsChanged (newSettings : ControllerSettings)
  (oldSettings : option ControllerSettings) : bool :=
  match oldSettings with
  | None => false
  | Some old =>
      strictNotEqual (volumeThreshold newSettings) (volumeThreshold old)
      || strictNotEqual (marginBefore newSettings) (marginBefore old)
      || strictNotEqual (marginAfter newSettings) (marginAfter old)
      || xorb (isOppositeDay newSettings) (isOppositeDay old)
  end.

(** [newSettings.soundedSpeed !== oldSettings?.soundedSpeed]: a number
    is never [undefined]. *)
Definition soundedSpeedChanged (newSettings : ControllerSettings)
  (oldSettings : option ControllerSettings) : bool :=
  match oldSettings with
  | None => true
  | Some old => strictNotEqual (soundedSpeed newSettings) (soundedSpeed old)
  end.

(** [_setStateAccordingToNewSettings(newSettings, oldSettings)] (lines
    800-838). *)
Definition _setStateAccordingToNewSettings (newSettings : ControllerSettings)
  (oldSettings : option ControllerSettings) (rebuilt : option Lookahead)
  (i : Instance) : Instance :=
  let i1 := onController (set_settings newSettings) i in
  let i2 :=
    setDefaultPlaybackRateAndRememberIt
      (getActualPlaybackRateForSpeed maybeClosestNonNormalSpeed
         (soundedSpeed (settings (controller i1)))
         (volumeThreshold (settings (controller i1))))
      i1 in
  let i3 :=
    onController (_setSpeedAndLog maybeClosestNonNormalSpeed SOUNDED) i2 in
  let i4 :=
    if lookaheadSettingsChanged newSettings oldSettings
    then onController (destroyAndThrottledInitLookahead rebuilt) i3
    else i3 in
  if soundedSpeedChanged newSettings oldSettings then
    onController
      (fun c =>
         maybeScheduleMaybeSeekOrSpeedup browserHasAudioDesyncBug IS_DEV_MODE
           maybeClosestNonNormalSpeed
           (clearTimeout (maybeSeekOrSpeedupTimeoutId c) c))
      i4
  else i4.

(** [updateSettingsAndMaybeCreateNewInstance(newSettings)] (lines
    846-856); it returns [this]. *)
Definition updateSettingsAndMaybeCreateNewInstance
  (newSettings : ControllerSettings) (rebuilt : option Lookahead)
  (i : Instance) : Instance :=
  if initialized i then
    let oldSettings := settings (controller i) in
    _setStateAccordingToNewSettings newSettings (Some oldSettings) rebuilt i
  else
    mkInstance (controller i) (element_defaultPlaybackRate i) (initialized i)
      (Some newSettings).

(** The end of [init], after its awaits (lines 444-449).
    [Object.assign(this.settings, this._pendingSettingsUpdates)] copies
    every setting of the pending update, if there is one. *)
Definition finishInit (i : Instance) : Instance :=
  let i1 :=
    mkInstance (controller i) (element_defaultPlaybackRate i) true
      (_pendingSettingsUpdates i) in
  let i2 :=
    match _pendingSettingsUpdates i1 with
    | Some pending => onController (set_settings pending) i1
    | None => i1
    end in
  let i3 :=
    _setStateAccordingToNewSettings (settings (controller i2)) None None i2 in
  mkInstance (controller i3) (element_defaultPlaybackRate i3) (initialized i3)
    None.

(** Everything that happens to the instance: what the controller reacted
    to above, the element's ['loadstart'] and ['emptied'], the put-off run
    of [_initLookahead], a settings update, the end of [init], the
    throttle's timer armed again; and what happens to the element without
    the controller, playback moving on or the user seeking, pausing or
    changing the rate. *)
Inductive Event :=
| reaction (r : Reaction)
| elementChanges (e : HTMLMediaElement)
| loadstart (rebuilt : option Lookahead) (now : float)
| emptied
| throttledInitLookaheadRuns (l : Lookahead)
| settingsUpdate (newSettings : ControllerSettings)
    (rebuilt : option Lookahead)
| initFinishes
| throttleTimerRestarts (remainingWaitMs : float).

Definition handle (e : Event) (i : Instance) : Instance :=
  match e with
  | reaction r =>
      onController
        (react browserHasAudioDesyncBug IS_DEV_MODE maybeClosestNonNormalSpeed
           r) i
  | elementChanges e => onController (set_element e) i
  | loadstart rebuilt now => onController (onNewSrc rebuilt now) i
  | emptied => onController onOldSrcGone i
  | throttledInitLookaheadRuns l => onController (trailingInitLookahead l) i
  | settingsUpdate newSettings rebuilt =>
      updateSettingsAndMaybeCreateNewInstance newSettings rebuilt i
  | initFinishes => finishInit i
  | throttleTimerRestarts remainingWaitMs =>
      onController (restartThrottleTimer remainingWaitMs) i
  end.

(** A run: the events handled one after the other. *)
Definition run (es : list Event) (i : Instance) : Instance :=
  fold_left (fun i e => handle e i) es i.

End Settings.

(** The reactions other than a timer firing. *)
Definition firesNoTimer (r : Reaction) : Prop :=
  match r with onTimer _ => False | _ => True end.

(** The setting in force once [init] has ended: the last update made
    before, or the settings the controller was given. *)
Definition lastUpdate (updates : list (ControllerSettings * option Lookahead))
  (pending : option ControllerSettings) : option ControllerSettings :=
  last (map (fun u => Some (fst u)) updates) pending.

(** The timers that will call [maybeSeekOrSpeedup]. *)
Definition isDecisionTimer (t : Timer) : bool :=
  match timerHandler t with
  | maybeSeekOrSpeedupBounded _ _ => true
  | _ => false
  end.

(** The timer table is in order: handles are fresh and distinct, the
    stored handle was handed out before, and the pending timers that call
    [maybeSeekOrSpeedup] are those that carry the stored handle. *)
Record timersInOrder (c : Controller) : Prop := {
  handles_fresh :
    Forall (fun t => (timerId t < nextTimerHandle c)%Z) (pendingTimers c);
  handles_distinct : NoDup (map timerId (pendingTimers c));
  stored_handle_old : (maybeSeekOrSpeedupTimeoutId c < nextTimerHandle c)%Z;
  decision_timer_stored :
    forall t, In t (pendingTimers c) ->
      (isDecisionTimer t = true <-> timerId t = maybeSeekOrSpeedupTimeoutId c)
}.

End Lifecycle.

(** ** Concrete instances, for the examples below *)

Module LifecycleScenarios.
Import Prophet Controller Lifecycle Scenarios.
Local Open Scope float_scope.

(** An initialized instance around a controller, default rate 1. *)
Definition initializedWith (c : Controller) : Instance :=
  mkInstance c 1 true None.

(** The same before the end of [init]. *)
Definition uninitializedWith (c : Controller) : Instance :=
  mkInstance c 1 false None.

(** A position update arms a timer for the silence ahead, playback moves
    on a quarter of a second, and the position is updated again. *)
Definition twoUpdates : list Event :=
  [reaction onTimeupdate; elementChanges (playingAt 5.25);
   reaction onTimeupdate].

(** The timer that ends the speedup of [silenceAhead]. *)
Definition theRestoration : Timer := mkTimer 1 setSpeedSoundedLater 2500.

Definition fasterSettings : ControllerSettings := settingsWith 2 4 false false.

(** The same sounded speed as [silenceAhead], another silence speed. *)
Definition fasterInSilence : ControllerSettings :=
  settingsWith 1 8 false false.

(** What happens between ['emptied'] and the next lookahead. *)
Definition betweenSources : list Reaction :=
  [onTimeupdate; onSeekEvent (seeking 1000); onSetSpeed SILENCE].

(** The settings of [silenceAhead] with another volume threshold. *)
Definition higherThreshold : ControllerSettings :=
  mkSettings 0.5 1 0 0 false 4 false.

(** The speedup of [silenceAhead] under way, and the timer of
    [silenceLater] armed. *)
Definition speedupUnderWay : Instance :=
  run false false speedUnchanged [reaction onTimeupdate]
    (initializedWith silenceAhead).

Definition decisionArmed : Instance :=
  run false false speedUnchanged [reaction onTimeupdate]
    (initializedWith silenceLater).

(** The lookahead built for the new threshold. *)
Definition rangesAnew : Lookahead := lookaheadReporting (12, 20) false.

(** The timer the throttle arms second in the table. *)
Definition theThrottleTimer : Timer := mkTimer 2 throttleTimerExpired 1000.

(** Two settings updates made while [init] is running. *)
Definition earlyUpdates : list (ControllerSettings * option Lookahead) :=
  [(fasterSettings, None); (fasterInSilence, None)].

End LifecycleScenarios.

(** * Facts *)

(** ** Binary64 arithmetic

    What the proofs below need of IEEE 754 arithmetic, derived from the
    specification [Prim2SF] of the primitive operations: the order is
    transitive and total away from [NaN], sums and quotients of numbers
    that are not negative are not negative, and neither is [b - a] for
    finite [a <= b]. *)

Module Binary64Facts.
Import Binary64.
Local Open Scope float_scope.

Lemma leb_zero_nonneg x : (0 <=? x) = SFnonneg (Prim2SF x).
Proof.
  rewrite leb_spec. change (Prim2SF 0) with (S754_zero false).
  destruct (Prim2SF x) as [s|s| |s m e]; try destruct s; reflexivity.
Qed.

Lemma SFcompare_antisym x y :
  SFcompare y x = option_map CompOpp (SFcompare x y).
Proof.
  destruct x as [sx|sx| |sx mx ex], y as [sy|sy| |sy my ey];
    try destruct sx; try destruct sy; simpl; try reflexivity.
  all: rewrite (Z.compare_antisym ey ex); destruct (ey ?= ex)%Z; simpl; try reflexivity.
  all: fold (Pos.compare mx my); fold (Pos.compare my mx);
       rewrite (Pos.compare_antisym my mx); destruct (my ?= mx)%positive; reflexivity.
Qed.

Lemma SFleb_trans x y z :
  SFleb x y = true -> SFleb y z = true -> SFleb x z = true.
Proof.
  unfold SFleb.
  destruct x as [sx|sx| |sx mx ex], y as [sy|sy| |sy my ey], z as [sz|sz| |sz mz ez];
    try destruct sx; try destruct sy; try destruct sz; simpl;
    try reflexivity; try discriminate.
  all: fold (Pos.compare mx my); fold (Pos.compare my mz); fold (Pos.compare mx mz).
  all: destruct (Z.compare_spec ex ey); destruct (Z.compare_spec ey ez);
       destruct (Z.compare_spec ex ez); try lia; try reflexivity; try discriminate.
  all: destruct (Pos.compare_spec mx my); destruct (Pos.compare_spec my mz);
       destruct (Pos.compare_spec mx mz); simpl; try lia; try reflexivity; try discriminate.
Qed.

(** *** Rounding keeps the sign *)

Section Rounding.
Variables prec emax : Z.

Lemma shr_1_nonneg mrs : (0 <= shr_m mrs)%Z -> (0 <= shr_m (shr_1 mrs))%Z.
Proof.
  destruct mrs as [m r s]; simpl.
  destruct m as [|p|p]; [ | destruct p | ]; simpl; lia.
Qed.

Lemma iter_pos_shr_1_nonneg n : forall mrs,
  (0 <= shr_m mrs)%Z -> (0 <= shr_m (iter_pos shr_1 n mrs))%Z.
Proof.
  induction n as [n IH|n IH|]; intros mrs H; simpl.
  - apply IH, IH, shr_1_nonneg, H.
  - apply IH, IH, H.
  - apply shr_1_nonneg, H.
Qed.

Lemma shr_nonneg mrs e n :
  (0 <= shr_m mrs)%Z -> (0 <= shr_m (fst (shr mrs e n)))%Z.
Proof.
  intros H. destruct n; simpl; auto using iter_pos_shr_1_nonneg.
Qed.

Lemma shr_fexp_nonneg m e l :
  (0 <= m)%Z -> (0 <= shr_m (fst (shr_fexp prec emax m e l)))%Z.
Proof.
  intros H. unfold shr_fexp. apply shr_nonneg.
  destruct l as [|[]]; simpl; exact H.
Qed.

Lemma round_nearest_even_nonneg m l :
  (0 <= m)%Z -> (0 <= round_nearest_even m l)%Z.
Proof.
  intros H. destruct l as [|[]]; simpl; try lia.
  destruct (Z.even m); lia.
Qed.

Lemma binary_round_aux_nonneg m e l :
  (0 <= m)%Z -> SFnonneg (binary_round_aux prec emax false m e l) = true.
Proof.
  intros H. unfold binary_round_aux.
  pose proof (shr_fexp_nonneg m e l H) as H1.
  destruct (shr_fexp prec emax m e l) as [mrs' e']. simpl in H1.
  pose proof (shr_fexp_nonneg _ e' loc_Exact
                (round_nearest_even_nonneg _ (loc_of_shr_record mrs') H1)) as H2.
  destruct (shr_fexp prec emax _ e' loc_Exact) as [mrs'' e'']. simpl in H2.
  destruct (shr_m mrs'') as [|p|p]; try reflexivity; try lia.
  destruct (e'' <=? emax - prec)%Z; reflexivity.
Qed.

Lemma binary_normalize_nonneg m e s :
  (0 <= m)%Z -> SFnonneg (binary_normalize prec emax m e s) = true.
Proof.
  intros H. destruct m as [|p|p]; simpl; try reflexivity; try lia.
  unfold binary_round.
  destruct (shl_align p e _) as [mz ez].
  apply binary_round_aux_nonneg. lia.
Qed.

Lemma SFadd_nonneg x y :
  SFnonneg x = true -> SFnonneg y = true ->
  SFnonneg (SFadd prec emax x y) = true.
Proof.
  destruct x as [sx|sx| |sx mx ex], y as [sy|sy| |sy my ey];
    try destruct sx; try destruct sy; intros Hx Hy;
    try discriminate Hx; try discriminate Hy; try reflexivity.
  unfold SFadd, cond_Zopp. apply binary_normalize_nonneg. lia.
Qed.

Lemma SFdiv_nonneg x my ey :
  SFnonneg x = true ->
  SFnonneg (SFdiv prec emax x (S754_finite false my ey)) = true.
Proof.
  destruct x as [sx|sx| |sx mx ex]; try destruct sx; intros Hx;
    try discriminate Hx; try reflexivity.
  unfold SFdiv, SFdiv_core_binary, xorb.
  set (m' := match _ with Z0 => _ | Zpos _ => _ | Zneg _ => _ end).
  assert (Hm' : (0 <= m')%Z).
  { subst m'. destruct (_ - _ - _)%Z; try lia. apply Z.shiftl_nonneg. lia. }
  pose proof (Z_div_mod m' (Zpos my) ltac:(lia)) as Hdm.
  destruct (Z.div_eucl m' (Zpos my)) as [q r].
  apply binary_round_aux_nonneg. nia.
Qed.

End Rounding.

(** *** Valid binary64 numbers *)

Lemma digits2_pos_size m : digits2_pos m = Pos.size m.
Proof. induction m; simpl; congruence. Qed.

Lemma digits2_pos_upper m : (Zpos m < 2 ^ Zpos (digits2_pos m))%Z.
Proof.
  rewrite digits2_pos_size, <- Pos2Z.inj_pow. apply Pos2Z.pos_lt_pos, Pos.size_gt.
Qed.

Lemma digits2_pos_lower m : (2 ^ Zpos (digits2_pos m) <= 2 * Zpos m)%Z.
Proof.
  rewrite digits2_pos_size, <- Pos2Z.inj_pow.
  change (2 * Zpos m)%Z with (Zpos m~0). apply Pos2Z.pos_le_pos, Pos.size_le.
Qed.

Lemma bounded_emin m e : bounded prec emax m e = true -> (-1074 <= e)%Z.
Proof.
  unfold bounded, canonical_mantissa, fexp, SpecFloat.emin, prec, emax.
  intros H. apply andb_true_iff in H. destruct H as [H _].
  apply Z.eqb_eq in H. lia.
Qed.

Lemma bounded_upper m e : bounded prec emax m e = true -> (Zpos m < 2 ^ 53)%Z.
Proof.
  unfold bounded, canonical_mantissa, fexp, SpecFloat.emin, prec, emax.
  intros H. apply andb_true_iff in H. destruct H as [H _].
  apply Z.eqb_eq in H.
  pose proof (digits2_pos_upper m) as Hu.
  assert (Hd : (Zpos (digits2_pos m) <= 53)%Z) by lia.
  eapply Z.lt_le_trans; [exact Hu|].
  apply Z.pow_le_mono_r; lia.
Qed.

Lemma bounded_normal m e :
  bounded prec emax m e = true -> (-1074 < e)%Z -> (2 ^ 52 <= Zpos m)%Z.
Proof.
  unfold bounded, canonical_mantissa, fexp, SpecFloat.emin, prec, emax.
  intros H He. apply andb_true_iff in H. destruct H as [H _].
  apply Z.eqb_eq in H.
  assert (Hd : Zpos (digits2_pos m) = 53%Z) by lia.
  pose proof (digits2_pos_lower m) as Hl. rewrite Hd in Hl.
  change (2 ^ 53)%Z with (2 * 2 ^ 52)%Z in Hl. lia.
Qed.

Lemma shl_align_same m e : shl_align m e e = (m, e).
Proof. unfold shl_align. rewrite Z.sub_diag. reflexivity. Qed.

Lemma shl_align_down m e e' :
  (e' < e)%Z -> Zpos (fst (shl_align m e e')) = (Zpos m * 2 ^ (e - e'))%Z.
Proof.
  intros H. unfold shl_align.
  destruct (e' - e)%Z as [|d|d] eqn:E; try lia.
  simpl fst. fold (shift_pos d m). rewrite shift_pos_correct, Z.pow_pos_fold.
  replace (e - e')%Z with (Zpos d) by lia. lia.
Qed.

(** Magnitudes of valid finite binary64 numbers compare as [SFcompare]
    compares them: exponent first, then mantissa. *)
Lemma aligned_le m1 e1 m2 e2 :
  bounded prec emax m1 e1 = true -> bounded prec emax m2 e2 = true ->
  (e1 < e2 \/ (e1 = e2 /\ Zpos m1 <= Zpos m2))%Z ->
  (Zpos (fst (shl_align m1 e1 (Z.min e1 e2)))
   <= Zpos (fst (shl_align m2 e2 (Z.min e1 e2))))%Z.
Proof.
  intros B1 B2 [Hlt|[-> Hle]].
  - rewrite Z.min_l by lia. rewrite shl_align_same. simpl fst.
    rewrite shl_align_down by lia.
    pose proof (bounded_upper _ _ B1) as Hu.
    pose proof (bounded_emin _ _ B1) as Hm.
    pose proof (bounded_normal _ _ B2 ltac:(lia)) as Hn.
    assert (Hp : (2 ^ 1 <= 2 ^ (e2 - e1))%Z) by (apply Z.pow_le_mono_r; lia).
    change (2 ^ 53)%Z with (2 ^ 52 * 2 ^ 1)%Z in Hu. 
    change (2 ^ 1)%Z with 2%Z in *. nia.
  - rewrite Z.min_id, !shl_align_same. exact Hle.
Qed.

Lemma SFsub_nonneg x y :
  valid_binary x = true -> valid_binary y = true ->
  SFfinite x = true -> SFfinite y = true ->
  SFleb x y = true ->
  SFnonneg (SF64sub y x) = true.
Proof.
  unfold SFleb, SF64sub.
  destruct x as [sx|sx| |sx mx ex], y as [sy|sy| |sy my ey];
    try discriminate; intros Vx Vy _ _.
  - destruct sx, sy; intros _; reflexivity.
  - destruct sy; simpl; intros H; try discriminate H; reflexivity.
  - destruct sx; simpl; intros H; try discriminate H; reflexivity.
  - simpl in Vx, Vy. unfold SFsub.
    fold (Pos.compare mx my). 
    destruct sx, sy; simpl SFcompare; unfold cond_Zopp; intros H;
      try discriminate H; apply binary_normalize_nonneg.
    + (* both negative *)
      fold (Pos.compare mx my) in H.
      pose proof (aligned_le my ey mx ex Vy Vx) as A.
      destruct (Z.compare_spec ex ey) as [E|E|E]; try discriminate H.
      * destruct (Pos.compare_spec mx my) as [E'|E'|E']; try discriminate H;
          specialize (A ltac:(lia)); lia.
      * specialize (A ltac:(lia)); lia.
    + lia.
    + fold (Pos.compare mx my) in H.
      pose proof (aligned_le mx ex my ey Vx Vy) as A.
      rewrite (Z.min_comm ey ex).
      destruct (Z.compare_spec ex ey) as [E|E|E]; try discriminate H.
      * destruct (Pos.compare_spec mx my) as [E'|E'|E']; try discriminate H;
          specialize (A ltac:(lia)); lia.
      * specialize (A ltac:(lia)); lia.
Qed.

Lemma is_nan_spec x :
  is_nan x = match Prim2SF x with S754_nan => true | _ => false end.
Proof.
  unfold is_nan. rewrite eqb_spec. unfold SFeqb.
  destruct (Prim2SF x) as [s|s| |s m e]; try destruct s; simpl; try reflexivity.
  all: rewrite Z.compare_refl; fold (Pos.compare m m);
       rewrite Pos.compare_refl; reflexivity.
Qed.

Lemma is_finite_spec x : is_finite x = SFfinite (Prim2SF x).
Proof.
  unfold is_finite, is_infinity. rewrite is_nan_spec, eqb_spec, abs_spec.
  change (Prim2SF infinity) with (S754_infinity false).
  destruct (Prim2SF x) as [s|s| |s m e]; try destruct s; reflexivity.
Qed.

Lemma sub_nonneg a b :
  is_finite a = true -> is_finite b = true -> (a <=? b) = true ->
  (0 <=? b - a) = true.
Proof.
  rewrite !is_finite_spec, leb_spec, leb_zero_nonneg, sub_spec.
  intros Fa Fb H. apply SFsub_nonneg; auto using Prim2SF_valid.
Qed.

Lemma add_nonneg a b :
  (0 <=? a) = true -> (0 <=? b) = true -> (0 <=? a + b) = true.
Proof.
  rewrite !leb_zero_nonneg, add_spec. apply SFadd_nonneg.
Qed.

Lemma leb_trans a b c :
  (a <=? b) = true -> (b <=? c) = true -> (a <=? c) = true.
Proof. rewrite !leb_spec. apply SFleb_trans. Qed.

Lemma leb_refl a : is_finite a = true -> (a <=? a) = true.
Proof.
  rewrite is_finite_spec, leb_spec. unfold SFleb.
  destruct (Prim2SF a) as [s|s| |s m e]; intros F;
    try discriminate F; try destruct s; simpl; try reflexivity;
    rewrite Z.compare_refl; fold (Pos.compare m m);
    rewrite Pos.compare_refl; reflexivity.
Qed.

Lemma div_nonneg a b :
  (0 <=? a) = true -> (0 <? b) = true -> is_finite b = true ->
  (0 <=? a / b) = true.
Proof.
  rewrite !leb_zero_nonneg, ltb_spec, is_finite_spec, div_spec.
  change (Prim2SF 0) with (S754_zero false).
  intros Ha Hb Fb.
  destruct (Prim2SF b) as [s|s| |s m e]; try discriminate.
  destruct s; try discriminate. apply SFdiv_nonneg, Ha.
Qed.

Lemma ltb_true_not_nan x y :
  (x <? y) = true -> is_nan x = false /\ is_nan y = false.
Proof.
  rewrite ltb_spec, !is_nan_spec. unfold SFltb.
  destruct (Prim2SF x), (Prim2SF y); simpl; intros H; try discriminate H; auto.
Qed.

Lemma leb_true_not_nan x y :
  (x <=? y) = true -> is_nan x = false /\ is_nan y = false.
Proof.
  rewrite leb_spec, !is_nan_spec. unfold SFleb.
  destruct (Prim2SF x), (Prim2SF y); simpl; intros H; try discriminate H; auto.
Qed.

(** On numbers that are not [NaN], [<=] is the negation of [>]. *)
Lemma leb_negb_ltb x y :
  is_nan x = false -> is_nan y = false -> (x <=? y) = negb (y <? x).
Proof.
  rewrite !is_nan_spec, leb_spec, ltb_spec. unfold SFleb, SFltb.
  rewrite (SFcompare_antisym (Prim2SF x) (Prim2SF y)).
  destruct (Prim2SF x) as [sx|sx| |sx mx ex], (Prim2SF y) as [sy|sy| |sy my ey];
    intros Hx Hy; try discriminate Hx; try discriminate Hy;
    match goal with
    | |- context [SFcompare ?a ?b] => destruct (SFcompare a b) as [[]|] eqn:E
    end; try reflexivity; simpl in E; try discriminate E;
    destruct sx; try discriminate E; try destruct sy; discriminate E.
Qed.

Lemma MIN_VALUE_smallest x :
  (0 <? x) = true -> (x <? 0x1p-1074) = false.
Proof.
  rewrite !ltb_spec. pose proof (Prim2SF_valid x) as V.
  change (Prim2SF 0) with (S754_zero false).
  change (Prim2SF 0x1p-1074) with (S754_finite false 1 (-1074)).
  unfold SFltb.
  destruct (Prim2SF x) as [s|s| |s m e]; try destruct s; simpl;
    intros H; try discriminate H; try reflexivity.
  pose proof (bounded_emin _ _ V) as He.
  destruct (Z.compare_spec e (-1074)) as [E|E|E]; try lia; try reflexivity.
  destruct m; reflexivity.
Qed.

End Binary64Facts.

(** ** The seek-duration prophet *)

Module ProphetFacts.
Import Prophet ProphetSpec Scenarios Binary64Facts.
Local Open Scope float_scope.

Lemma tl_skipn {A : Type} (k : nat) (l : list A) :
  tl (skipn k l) = skipn (S k) l.
Proof.
  revert l. induction k as [|k IH]; intros [|x l]; simpl; auto.
Qed.

Lemma lastN_length {A : Type} (n : nat) (l : list A) :
  length (lastN n l) = Nat.min n (length l).
Proof. unfold lastN. rewrite length_skipn. lia. Qed.

(** Pushing a sample and shifting when the window overflows keeps the
    window equal to the last five samples. *)
Lemma lastN_push (ds : list float) (d : float) :
  lastN 5 (ds ++ [d]) =
  (if (5 <? length (lastN 5 ds ++ [d]))%nat
   then tl (lastN 5 ds ++ [d]) else lastN 5 ds ++ [d]).
Proof.
  rewrite length_app, lastN_length. simpl length.
  unfold lastN. rewrite length_app. simpl length.
  destruct (Nat.ltb_spec 5 (Nat.min 5 (length ds) + 1)) as [H|H].
  - assert (Hl : (5 <= length ds)%nat) by lia.
    replace (length ds + 1 - 5)%nat with (S (length ds - 5)) by lia.
    rewrite skipn_app.
    replace (S (length ds - 5) - length ds)%nat with 0%nat by lia.
    simpl (skipn 0 _). rewrite <- tl_skipn.
    destruct (skipn (length ds - 5) ds) as [|x xs] eqn:E; [|reflexivity].
    apply (f_equal (@length _)) in E. rewrite length_skipn in E.
    simpl in E. lia.
  - replace (length ds + 1 - 5)%nat with 0%nat by lia.
    replace (length ds - 5)%nat with 0%nat by lia. reflexivity.
Qed.

Lemma lastN_push_nonempty (ds : list float) (d : float) :
  lastN 5 (ds ++ [d]) <> [].
Proof.
  intros E. apply (f_equal (@length _)) in E.
  rewrite lastN_length, length_app in E. cbn [length] in E. lia.
Qed.

Lemma tracks_create now : tracks (create now) [].
Proof. split; reflexivity. Qed.

Lemma onSeeked_tracks t p ds :
  tracks p ds ->
  exists p', onSeeked t p = Some p'
    /\ tracks p' (ds ++ [t - lastSeekStartTime p])
    /\ lastSeekStartTime p' = lastSeekStartTime p.
Proof.
  intros [Hh Ha]. unfold onSeeked. rewrite Hh.
  unfold seekDurationProphetHistoryLength.
  rewrite <- lastN_push.
  pose proof (lastN_push_nonempty ds (t - lastSeekStartTime p)) as Hne.
  destruct (lastN 5 (ds ++ [t - lastSeekStartTime p])) as [|x xs] eqn:E;
    [congruence|].
  simpl Js.Array_reduce_add. eexists; split; [reflexivity|].
  split; [split|]; simpl; auto.
  unfold currentEstimateMs. rewrite E.
  destruct ds; reflexivity.
Qed.

Lemma handleEvents_tracks es : forall p ds,
  tracks p ds ->
  exists p', handleEvents es p = Some p'
    /\ tracks p' (ds ++ observedDurations (lastSeekStartTime p) es).
Proof.
  induction es as [|[t|t] es IH]; intros p ds H; simpl.
  - exists p. rewrite app_nil_r. auto.
  - apply (IH (onSeeking t p) ds). exact H.
  - destruct (onSeeked_tracks t p ds H) as (p' & E & H' & L).
    rewrite E. destruct (IH p' _ H') as (p'' & E' & H'').
    exists p''. split; [exact E'|].
    rewrite L, <- app_assoc in H''. exact H''.
Qed.

(** C4. Whatever ['seeking'] and ['seeked'] events a freshly created
    prophet receives, it handles them all, and its estimate
    [nextSeekDurationMs] is then the arithmetic mean of the last five
    samples at most (the oldest evicted first), a sample being the time
    from the most recent ['seeking'] (from the creation of the prophet if
    there was none yet) to the ['seeked']; with no sample it is 150 ms. *)
Theorem estimate_is_mean_of_last_five_samples (now : float)
  (es : list SeekEvent) :
  exists p, handleEvents es (create now) = Some p
    /\ nextSeekDurationMs p = currentEstimateMs (observedDurations now es)
    /\ history p = lastN 5 (observedDurations now es).
Proof.
  destruct (handleEvents_tracks es (create now) [] (tracks_create now))
    as (p & E & Hh & Ha).
  exists p. simpl in *. auto.
Qed.

(** *** The estimate is not negative when time stamps never go back *)


Lemma fold_left_add_notNegative (xs : list float) : forall x,
  notNegative x -> Forall notNegative xs -> notNegative (fold_left add xs x).
Proof.
  induction xs as [|y ys IH]; intros x Hx Hxs; simpl; [exact Hx|].
  inversion Hxs; subst. apply IH; [apply add_nonneg|]; assumption.
Qed.

Lemma Forall_tl {A : Type} (P : A -> Prop) (l : list A) :
  Forall P l -> Forall P (tl l).
Proof. destruct 1; simpl; auto. Qed.

Lemma Number_of_length_positive (n : nat) :
  (1 <= n <= 5)%nat ->
  (0 <? Js.Number_of_length n) = true
  /\ is_finite (Js.Number_of_length n) = true.
Proof.
  intros H.
  destruct n as [|[|[|[|[|[|n]]]]]]; try lia; split; vm_compute; reflexivity.
Qed.

Lemma healthy_create now : is_finite now = true -> healthy now (create now).
Proof.
  intros F. split; simpl; auto using leb_refl.
  - vm_compute. reflexivity.
  - lia.
Qed.

Lemma onSeeked_healthy previous t p p' :
  healthy previous p -> is_finite t = true -> (previous <=? t) = true ->
  onSeeked t p = Some p' -> healthy t p'.
Proof.
  intros [Fr Br Hh Ha Hl] Ft Ht. unfold onSeeked.
  set (d := t - lastSeekStartTime p).
  assert (Hd : notNegative d).
  { apply sub_nonneg; auto. eapply leb_trans; eauto. }
  set (pushed := history p ++ [d]).
  assert (Hp : Forall notNegative pushed).
  { apply Forall_app. auto. }
  assert (Lp : length pushed = S (length (history p))).
  { unfold pushed. rewrite length_app. simpl. lia. }
  set (hist := if (_ <? _)%nat then tl pushed else pushed).
  assert (Hhist : Forall notNegative hist).
  { unfold hist. destruct (_ <? _)%nat; auto using Forall_tl. }
  assert (Lhist : (1 <= length hist <= 5)%nat).
  { unfold hist, seekDurationProphetHistoryLength.
    destruct (Nat.ltb_spec 5 (length pushed)) as [L|L].
    - destruct pushed; simpl in *; lia.
    - lia. }
  destruct hist as [|x xs] eqn:E; simpl Js.Array_reduce_add; [discriminate|].
  intros [= <-]. split; simpl; auto.
  - eapply leb_trans; eauto.
  - destruct (Number_of_length_positive (S (length xs)) Lhist) as [P F].
    inversion Hhist; subst.
    apply div_nonneg; auto. apply fold_left_add_notNegative; auto.
  - apply Lhist.
Qed.

Lemma handleEvents_healthy es : forall previous p p',
  healthy previous p -> timeStampsAscend previous es = true ->
  handleEvents es p = Some p' ->
  exists last, healthy last p'.
Proof.
  induction es as [|e es IH]; intros previous p p' H A; simpl.
  - intros [= <-]. eauto.
  - simpl in A. apply andb_true_iff in A. destruct A as [A A3].
    apply andb_true_iff in A. destruct A as [A1 A2].
    destruct e as [t|t]; simpl in *.
    + apply (IH t). 2: exact A3.
      destruct H. split; simpl; auto using leb_refl.
    + destruct (onSeeked t p) as [p1|] eqn:E; [|discriminate].
      apply (IH t); auto. eapply onSeeked_healthy; eauto.
Qed.

(** C5, as amended. A freshly created prophet handles every trace of
    events, and after it the history holds five samples at most; when the
    time stamps are finite and never go back (the first no earlier than
    the creation of the prophet), the estimate is not negative. Every
    prefix of a trace is a trace, so this holds after each event. *)
Theorem history_bounded_and_estimate_not_negative (now : float)
  (es : list SeekEvent) :
  exists p, handleEvents es (create now) = Some p
    /\ (length (history p) <= 5)%nat
    /\ (is_finite now = true -> timeStampsAscend now es = true ->
        (0 <=? nextSeekDurationMs p) = true).
Proof.
  destruct (handleEvents_tracks es (create now) [] (tracks_create now))
    as (p & E & Hh & _).
  exists p. split; [exact E|]. split.
  - rewrite Hh, lastN_length. lia.
  - intros F A.
    destruct (handleEvents_healthy es now (create now) p
                (healthy_create now F) A E) as (last & H).
    apply H.
Qed.

(** The prophet at work: the sixth sample evicts the first, and a seek
    begun twice is timed from its second ['seeking']. *)
Example six_seeks_keep_last_five :
  handleEvents sixSeeks (create 0)
  = Some (mkProphet [20; 30; 40; 50; 60] 40 6000).
Proof. vm_compute. reflexivity. Qed.

Example seek_begun_twice_is_timed_from_the_second :
  handleEvents seekBegunTwice (create 0) = Some (mkProphet [100] 100 1500).
Proof. vm_compute. reflexivity. Qed.

(** C5, as the specification states it, fails here. A ['seeked'] stamped
    before the ['seeking'] it follows leaves the prophet with a negative
    estimate. *)
Lemma estimate_negative_after_backward_time_stamps :
  handleEvents backwardTimeStamps (create 0)
  = Some prophetAfterBackwardTimeStamps
  /\ nextSeekDurationMs prophetAfterBackwardTimeStamps = (-1000)%float
  /\ (0 <=? nextSeekDurationMs prophetAfterBackwardTimeStamps) = false.
Proof. repeat split; vm_compute; reflexivity. Qed.

(** C5, as amended, on six seeks whose time stamps ascend. *)
Lemma history_bounded_and_estimate_not_negative_witness :
  is_finite 0 = true /\ timeStampsAscend 0 sixSeeks = true
  /\ exists p, handleEvents sixSeeks (create 0) = Some p
       /\ (length (history p) <= 5)%nat
       /\ (0 <=? nextSeekDurationMs p) = true.
Proof.
  split; [vm_compute; reflexivity|]. split; [vm_compute; reflexivity|].
  destruct (history_bounded_and_estimate_not_negative 0 sixSeeks)
    as (p & E & L & N).
  exists p. split; [exact E|]. split; [exact L|].
  apply N; vm_compute; reflexivity.
Defined.

End ProphetFacts.

(** ** The decision engine and the scheduler *)

Module ControllerFacts.
Import Prophet Controller EngineSpec Scenarios Binary64Facts.
Local Open Scope float_scope.

(** Case analysis on every test of a conditional in the goal. *)
Ltac case_ifs :=
  repeat match goal with
         | |- context [if ?b then _ else _] => destruct b; simpl
         end.

Section Engine.

Variable browserHasAudioDesyncBug : bool.
Variable IS_DEV_MODE : bool.
Variable maybeClosestNonNormalSpeed : float -> float -> float.

Abbreviation whatToDo := (whatToDo browserHasAudioDesyncBug IS_DEV_MODE).
Abbreviation computeWhatToDo := (computeWhatToDo browserHasAudioDesyncBug IS_DEV_MODE).
Abbreviation canSaveTimeBySpeedingUp := (canSaveTimeBySpeedingUp browserHasAudioDesyncBug).
Abbreviation needForceSeekForDesyncCorrection :=
  (needForceSeekForDesyncCorrection browserHasAudioDesyncBug).
Abbreviation ifNeedForceSeekThenSeekElse :=
  (ifNeedForceSeekThenSeekElse browserHasAudioDesyncBug).
Abbreviation maybeSeekOrSpeedup :=
  (maybeSeekOrSpeedup browserHasAudioDesyncBug IS_DEV_MODE
     maybeClosestNonNormalSpeed).
Abbreviation maybeScheduleMaybeSeekOrSpeedup :=
  (maybeScheduleMaybeSeekOrSpeedup browserHasAudioDesyncBug IS_DEV_MODE
     maybeClosestNonNormalSpeed).
Abbreviation _setSpeedAndLog := (_setSpeedAndLog maybeClosestNonNormalSpeed).
Abbreviation runTimerHandler :=
  (runTimerHandler browserHasAudioDesyncBug IS_DEV_MODE
     maybeClosestNonNormalSpeed).
Abbreviation fireTimer :=
  (fireTimer browserHasAudioDesyncBug IS_DEV_MODE maybeClosestNonNormalSpeed).
Abbreviation react :=
  (react browserHasAudioDesyncBug IS_DEV_MODE maybeClosestNonNormalSpeed).

(** *** The verdict *)

Lemma gtb_zero_negb_leb (x y : float) :
  (x >? y) = true -> (x <=? 0) = negb (x >? 0).
Proof.
  unfold Js.gtb. intros H. destruct (ltb_true_not_nan _ _ H) as [_ Hx].
  apply leb_negb_ltb; [exact Hx|reflexivity].
Qed.

Lemma whatToDo_eq (seekTo : float) (c : Controller) :
  whatToDo seekTo c =
  if canSaveTimeBySeeking seekTo c >? canSaveTimeBySpeedingUp seekTo c then
    if canSaveTimeBySeeking seekTo c <=? 0
    then ifNeedForceSeekThenSeekElse seekTo c NOTHING else SEEK
  else if canSaveTimeBySpeedingUp seekTo c <=? 0
  then ifNeedForceSeekThenSeekElse seekTo c NOTHING
  else if speedupCanOvershoot seekTo c then
    if canSaveTimeBySeeking seekTo c >? 0 then SEEK
    else ifNeedForceSeekThenSeekElse seekTo c NOTHING
  else ifNeedForceSeekThenSeekElse seekTo c SPEEDUP.
Proof.
  unfold Controller.whatToDo, Controller.computeWhatToDo.
  case_ifs; reflexivity.
Qed.

(** C1, as amended. Whatever the controller and the destination, the
    verdict follows the ordered rule: (1) if [canSaveTimeBySeeking >
    canSaveTimeBySpeedingUp], SEEK when [canSaveTimeBySeeking > 0], else
    NOTHING (or forced SEEK); (2) else if [canSaveTimeBySpeedingUp <= 0],
    NOTHING (or forced SEEK); (3) else if the real time left at silence
    speed is at most 1/240 s, SEEK when [canSaveTimeBySeeking > 0], else
    NOTHING (or forced SEEK); (4) else SPEEDUP (or forced SEEK): the
    forced desync seek overrides the SPEEDUP of step 4 as it does the
    NOTHING verdicts. *)
Theorem verdict_follows_decision_rule (seekTo : float) (c : Controller) :
  whatToDo seekTo c =
  decisionRule
    (canSaveTimeBySeeking seekTo c)
    (canSaveTimeBySpeedingUp seekTo c)
    (realTimeLeftUntilDestinationAtSilenceSpeed seekTo c)
    (needForceSeekForDesyncCorrection seekTo c).
Proof.
  rewrite whatToDo_eq.
  unfold decisionRule, orForcedSeek, Controller.ifNeedForceSeekThenSeekElse,
    speedupCanOvershoot, expectedMinimumSetTimeoutDelay.
  destruct (canSaveTimeBySeeking seekTo c >? canSaveTimeBySpeedingUp seekTo c)
    eqn:E; [|reflexivity].
  rewrite (gtb_zero_negb_leb _ _ E).
  destruct (canSaveTimeBySeeking seekTo c >? 0); reflexivity.
Qed.

(** *** The forced seek *)

Lemma is_zero_spec (x : float) :
  is_zero x = match Prim2SF x with S754_zero _ => true | _ => false end.
Proof.
  unfold is_zero. rewrite eqb_spec. change (Prim2SF zero) with (S754_zero false).
  destruct (Prim2SF x) as [s|s| |s m e]; try destruct s; reflexivity.
Qed.

(** On a number that is not negative, [x || Number.MIN_VALUE] is
    [Math.max(x, Number.MIN_VALUE)]: no double lies strictly between zero
    and [Number.MIN_VALUE]. *)
Lemma or_else_MIN_VALUE_max (x : float) :
  (0 <=? x) = true ->
  Js.or_else x Js.Number_MIN_VALUE = Js.Math_max x Js.Number_MIN_VALUE.
Proof.
  intros H. pose proof (Prim2SF_valid x) as V.
  rewrite leb_zero_nonneg in H.
  unfold Js.or_else, Js.ToBoolean, Js.Math_max.
  rewrite is_zero_spec, (is_nan_spec x), !ltb_spec.
  change (is_nan Js.Number_MIN_VALUE) with false.
  change (Prim2SF Js.Number_MIN_VALUE) with (S754_finite false 1 (-1074)).
  unfold SFltb.
  destruct (Prim2SF x) as [s|s| |s m e]; simpl in H; try discriminate H.
  - reflexivity.
  - destruct s; [discriminate H|reflexivity].
  - destruct s; [discriminate H|]. simpl in V.
    pose proof (Binary64Facts.bounded_emin _ _ V) as He.
    unfold SFcompare. cbn [negb orb andb].
    destruct (Z.compare_spec e (-1074)) as [E|E|E]; try lia;
      [destruct m; cbn [Pos.compare_cont]|];
      match goal with |- _ = (if ?b then _ else _) => destruct b end;
      reflexivity.
Qed.

(** The closure, read off lines 622-651. *)
Lemma needForceSeekForDesyncCorrection_eq (seekTo : float) (c : Controller) :
  needForceSeekForDesyncCorrection seekTo c =
  browserHasAudioDesyncBug && enableDesyncCorrection (settings c)
  && (_didNotDoDesyncCorrectionForNSpeedSwitches c / 20
      >=? 1 - realTimeLeftUntilDestinationAtNormalSpeed seekTo c
              / Js.or_else (expectedSeekDuration c) Js.Number_MIN_VALUE).
Proof.
  unfold Controller.needForceSeekForDesyncCorrection,
    DO_DESYNC_CORRECTION_EVERY_N_SPEED_SWITCHES.
  destruct (browserHasAudioDesyncBug && enableDesyncCorrection (settings c));
    [|reflexivity].
  simpl. destruct (_ >=? _); reflexivity.
Qed.

(** C2, as amended. The closure forces a seek only when the desync-bug
    workaround is active ([browserHasAudioDesyncBug] and
    [enableDesyncCorrection] both true); and when the expected seek
    duration is not negative, it forces one exactly when the workaround is
    active and [desyncBudget / 20 >= 1 - realTimeLeftUntilDestinationAtNormalSpeed
    / max(expectedSeekDuration, Number.MIN_VALUE)]. *)
Theorem forced_seek_test (seekTo : float) (c : Controller) :
  (browserHasAudioDesyncBug && enableDesyncCorrection (settings c) = false ->
   needForceSeekForDesyncCorrection seekTo c = false)
  /\ ((0 <=? expectedSeekDuration c) = true ->
      needForceSeekForDesyncCorrection seekTo c =
      forcedSeekTest
        (browserHasAudioDesyncBug && enableDesyncCorrection (settings c))
        (_didNotDoDesyncCorrectionForNSpeedSwitches c)
        (realTimeLeftUntilDestinationAtNormalSpeed seekTo c)
        (expectedSeekDuration c)).
Proof.
  pose proof (needForceSeekForDesyncCorrection_eq seekTo c) as G.
  split.
  - rewrite G. intros ->. reflexivity.
  - intros H. rewrite G, (or_else_MIN_VALUE_max _ H). reflexivity.
Qed.

(** *** What an invocation of the engine changes *)

Lemma set_timers_same (c : Controller) :
  set_timers (pendingTimers c) (nextTimerHandle c) c = c.
Proof. destruct c; reflexivity. Qed.

(** The closure that computes the verdict touches the timer table only:
    it arms no timer, or the one probe of a development build. *)
Lemma computeWhatToDo_frame (seekTo : float) (c : Controller) :
  exists probes,
    snd (computeWhatToDo seekTo c)
    = set_timers (pendingTimers c ++ probes)
        (nextTimerHandle c + Z.of_nat (length probes))%Z c
    /\ (probes = []
        \/ probes = [mkTimer (nextTimerHandle c) devTimeoutDelayProbe 0]).
Proof.
  assert (H0 : exists probes,
    c = set_timers (pendingTimers c ++ probes)
          (nextTimerHandle c + Z.of_nat (length probes))%Z c
    /\ (probes = []
        \/ probes = [mkTimer (nextTimerHandle c) devTimeoutDelayProbe 0])).
  { exists []. rewrite app_nil_r, Z.add_0_r, set_timers_same. auto. }
  unfold Controller.computeWhatToDo.
  case_ifs; try exact H0.
  all: eexists [_]; split; [reflexivity|right; reflexivity].
Qed.

(** The verdict is SPEEDUP only where no probe was armed. *)
Lemma computeWhatToDo_SPEEDUP (seekTo : float) (c : Controller) :
  whatToDo seekTo c = SPEEDUP -> computeWhatToDo seekTo c = (SPEEDUP, c).
Proof.
  unfold Controller.whatToDo, Controller.computeWhatToDo,
    Controller.ifNeedForceSeekThenSeekElse.
  destruct (speedupCanOvershoot seekTo c), IS_DEV_MODE; simpl;
  case_ifs; intros E; try discriminate E; reflexivity.
Qed.

Lemma onSilenceSkippingSeek_frame (skipped d : float) (c : Controller) :
  exists t, onSilenceSkippingSeek skipped d c = set_timeSavedTracker t c.
Proof.
  unfold onSilenceSkippingSeek. destruct (timeSavedTracker c) as [calls|] eqn:E.
  - eauto.
  - exists None. destruct c; simpl in *; subst; reflexivity.
Qed.

(** The three outcomes of an invocation that is not stale. *)
Lemma maybeSeekOrSpeedup_fresh (seekTo seekScheduledTo : float)
  (c : Controller) :
  mustCancelSeek seekScheduledTo c = false ->
  let c' := maybeSeekOrSpeedup seekTo seekScheduledTo c in
  match whatToDo seekTo c with
  | SEEK =>
      _didNotDoDesyncCorrectionForNSpeedSwitches c' = 0
      /\ currentTime (element c') = seekTo
      /\ playbackRate (element c') = playbackRate (element c)
      /\ _lastSilenceSkippingSeek c' = Some (seekScheduledTo, seekTo)
      /\ pendingTimers c' = pendingTimers (snd (computeWhatToDo seekTo c))
  | SPEEDUP =>
      _didNotDoDesyncCorrectionForNSpeedSwitches c'
      = _didNotDoDesyncCorrectionForNSpeedSwitches c + 1
      /\ currentTime (element c') = currentTime (element c)
      /\ playbackRate (element c')
         = maybeClosestNonNormalSpeed (silenceSpeed (settings c))
             (volumeThreshold (settings c))
      /\ _lastSilenceSkippingSeek c' = _lastSilenceSkippingSeek c
      /\ pendingTimers c'
         = pendingTimers c
           ++ [mkTimer (nextTimerHandle c) setSpeedSoundedLater
                 (realTimeLeftUntilDestinationAtSilenceSpeed seekTo c * 1000)]
  | NOTHING => c' = snd (computeWhatToDo seekTo c)
  end.
Proof.
  intros Hfresh. unfold Controller.maybeSeekOrSpeedup. rewrite Hfresh.
  destruct (whatToDo seekTo c) eqn:V.
  - unfold Controller.whatToDo in V.
    destruct (computeWhatToDo seekTo c) as [v c1]. simpl in V. subst v.
    reflexivity.
  - rewrite (computeWhatToDo_SPEEDUP _ _ V). cbv zeta.
    repeat split.
  - unfold Controller.whatToDo in V.
    destruct (computeWhatToDo_frame seekTo c) as (probes & E & _).
    destruct (computeWhatToDo seekTo c) as [v c1]. simpl in V, E. subst v c1.
    cbv zeta.
    match goal with
    | |- context [onSilenceSkippingSeek ?a ?b ?x] =>
        destruct (onSilenceSkippingSeek_frame a b x) as (t & ->)
    end.
    repeat split.
Qed.

Lemma maybeSeekOrSpeedup_stale (seekTo seekScheduledTo : float)
  (c : Controller) :
  mustCancelSeek seekScheduledTo c = true ->
  maybeSeekOrSpeedup seekTo seekScheduledTo c = c.
Proof. intros H. unfold Controller.maybeSeekOrSpeedup. rewrite H. reflexivity. Qed.

(** C7. An invocation on a paused element, or on one whose position is
    more than 0.5 away from the position the call was scheduled for,
    returns the controller as it found it: [currentTime], [playbackRate],
    the desync budget, the prophet's history and everything else are
    untouched. *)
Theorem stale_invocation_is_a_no_op (seekTo seekScheduledTo : float)
  (c : Controller) :
  paused (element c) = true
  \/ (Js.Math_abs (currentTime (element c) - seekScheduledTo) >? 0.5) = true ->
  maybeSeekOrSpeedup seekTo seekScheduledTo c = c.
Proof.
  intros H. apply maybeSeekOrSpeedup_stale. unfold mustCancelSeek.
  destruct H as [-> | ->]; auto using orb_true_r.
Qed.

(** *** The desync budget *)

Abbreviation budget := _didNotDoDesyncCorrectionForNSpeedSwitches.

Abbreviation budgetStep :=
  (budgetStep browserHasAudioDesyncBug IS_DEV_MODE maybeClosestNonNormalSpeed).

Lemma budgetStep_frame (c0 c c' : Controller) :
  budget c = budget c0 -> budgetStep c c' -> budgetStep c0 c'.
Proof. unfold EngineSpec.budgetStep. intros <-. auto. Qed.

Lemma maybeSeekOrSpeedup_budgetStep (seekTo seekScheduledTo : float)
  (c : Controller) :
  budgetStep c (maybeSeekOrSpeedup seekTo seekScheduledTo c).
Proof.
  destruct (mustCancelSeek seekScheduledTo c) eqn:S.
  - rewrite maybeSeekOrSpeedup_stale by exact S. left. reflexivity.
  - pose proof (maybeSeekOrSpeedup_fresh seekTo seekScheduledTo c S) as H.
    cbv zeta in H. destruct (whatToDo seekTo c) eqn:V.
    + rewrite H. destruct (computeWhatToDo_frame seekTo c) as (ps & -> & _).
      left. reflexivity.
    + right. exists seekTo, seekScheduledTo, c.
      repeat split; auto. right. split; [exact V|apply H].
    + right. exists seekTo, seekScheduledTo, c.
      repeat split; auto. left. split; [exact V|]. split; apply H.
Qed.

Lemma maybeScheduleMaybeSeekOrSpeedup_budgetStep (c : Controller) :
  budgetStep c (maybeScheduleMaybeSeekOrSpeedup c).
Proof.
  unfold Controller.maybeScheduleMaybeSeekOrSpeedup.
  destruct (lookahead c) as [l|]; [|left; reflexivity].
  destruct (getNextSilenceRange l _) as [[[s e] pending]|]; [|left; reflexivity].
  destruct (isOppositeDay (settings c) && pending); [left; reflexivity|].
  destruct (pending && _); [left; reflexivity|].
  destruct (_ <=? 0).
  - eapply budgetStep_frame; [|apply maybeSeekOrSpeedup_budgetStep]. reflexivity.
  - left. reflexivity.
Qed.

Lemma react_budgetStep (r : Reaction) (c : Controller) :
  budgetStep c (react r c).
Proof.
  destruct r as [|t|e|n]; simpl.
  - apply maybeScheduleMaybeSeekOrSpeedup_budgetStep.
  - unfold Controller.fireTimer. destruct (timerHandler t); simpl.
    + eapply budgetStep_frame; [|apply maybeSeekOrSpeedup_budgetStep]. reflexivity.
    + left. reflexivity.
    + left. reflexivity.
    + left. reflexivity.
  - destruct (handleEvent e _); left; reflexivity.
  - left. reflexivity.
Qed.

(** C3. Whatever the value of the desync budget
    [_didNotDoDesyncCorrectionForNSpeedSwitches], an invocation that is not
    stale sets it to 0 when it seeks (the verdict may be a forced or a
    chosen SEEK), adds exactly 1 to it when it speeds up, and leaves it
    alone when it does nothing; and no reaction of the controller (a
    ['timeupdate'], a timer firing, a seek event, a speed switch) resets it
    without performing a seek: a reaction leaves the budget as it is
    unless it runs the engine, not stale, to a SEEK, which sets the budget
    to 0 and [currentTime] to the destination, or to a SPEEDUP, which
    adds 1. *)
Theorem budget_resets_on_seek_and_counts_speedups :
  (forall seekTo seekScheduledTo c,
     mustCancelSeek seekScheduledTo c = false ->
     let c' := maybeSeekOrSpeedup seekTo seekScheduledTo c in
     match whatToDo seekTo c with
     | SEEK => budget c' = 0 /\ currentTime (element c') = seekTo
     | SPEEDUP => budget c' = budget c + 1
     | NOTHING => budget c' = budget c
     end)
  /\ (forall r c,
        EngineSpec.budgetStep browserHasAudioDesyncBug IS_DEV_MODE
          maybeClosestNonNormalSpeed c (react r c)).
Proof.
  split; [|exact react_budgetStep].
  intros seekTo seekScheduledTo c S.
  pose proof (maybeSeekOrSpeedup_fresh seekTo seekScheduledTo c S) as H.
  cbv zeta in *. destruct (whatToDo seekTo c).
  - rewrite H. destruct (computeWhatToDo_frame seekTo c) as (ps & -> & _).
    reflexivity.
  - apply H.
  - split; apply H.
Qed.

(** *** The scheduler *)

Lemma maybeScheduleMaybeSeekOrSpeedup_eq (c : Controller) :
  maybeScheduleMaybeSeekOrSpeedup c =
  match skipToSchedule c with
  | None => c
  | Some (seekTo, seekAt) =>
      let c1 := clearTimeout (maybeSeekOrSpeedupTimeoutId c) c in
      let seekInRealTime :=
        (seekAt - currentTime (element c)) / soundedSpeed (settings c) in
      if seekInRealTime <=? 0 then maybeSeekOrSpeedup seekTo seekAt c1
      else
        set_maybeSeekOrSpeedupTimeoutId (nextTimerHandle c1)
          (snd (setTimeout (maybeSeekOrSpeedupBounded seekTo seekAt)
                  (seekInRealTime * 1000) c1))
  end.
Proof.
  unfold Controller.maybeScheduleMaybeSeekOrSpeedup, skipToSchedule.
  destruct (lookahead c) as [l|]; [|reflexivity].
  destruct (getNextSilenceRange l _) as [[[s e] pending]|]; [|reflexivity].
  destruct (isOppositeDay (settings c) && pending); [reflexivity|].
  destruct (pending && _); reflexivity.
Qed.

(** C6. When the lookahead reports a next range, the scheduler works with
    [seekAt = max(range.start, currentTime)] and [seekTo = max(seekAt,
    range.end - 3)] for a pending range, [range.end] for a final one: if
    the range is pending and [seekTo - currentTime < 3] it does nothing;
    and whenever it gets past its guards, it is with these two values that
    it calls the engine at once, or arms the timer that will. *)
Theorem scheduler_computes_seekAt_and_seekTo (c : Controller) (l : Lookahead)
  (rangeStart rangeEnd : float) (pending : bool) :
  lookahead c = Some l ->
  getNextSilenceRange l (currentTime (element c))
  = Some ((rangeStart, rangeEnd), pending) ->
  let position := currentTime (element c) in
  let seekAt := Js.Math_max rangeStart position in
  let seekTo :=
    if pending then Js.Math_max seekAt (rangeEnd - 3) else rangeEnd in
  (pending = true -> (seekTo - position <? 3) = true ->
   maybeScheduleMaybeSeekOrSpeedup c = c)
  /\ (isOppositeDay (settings c) && pending = false ->
      pending && (seekTo - position <? 3) = false ->
      let c1 := clearTimeout (maybeSeekOrSpeedupTimeoutId c) c in
      let seekInRealTime := (seekAt - position) / soundedSpeed (settings c) in
      maybeScheduleMaybeSeekOrSpeedup c =
      if seekInRealTime <=? 0 then maybeSeekOrSpeedup seekTo seekAt c1
      else
        set_maybeSeekOrSpeedupTimeoutId (nextTimerHandle c1)
          (snd (setTimeout (maybeSeekOrSpeedupBounded seekTo seekAt)
                  (seekInRealTime * 1000) c1))).
Proof.
  intros L R. cbv zeta.
  rewrite maybeScheduleMaybeSeekOrSpeedup_eq. unfold skipToSchedule.
  rewrite L, R. split.
  - intros -> ->. destruct (isOppositeDay (settings c)); reflexivity.
  - intros -> ->. reflexivity.
Qed.

(** C8. In opposite-day mode a position update whose next range is still
    pending leaves the controller as it was: no timer is armed and the
    engine is not called; if the scheduler changes anything in that mode,
    the range it was given is a final one. *)
Theorem opposite_day_schedules_final_ranges_only (c : Controller) :
  isOppositeDay (settings c) = true ->
  (forall l range,
     lookahead c = Some l ->
     getNextSilenceRange l (currentTime (element c)) = Some (range, true) ->
     maybeScheduleMaybeSeekOrSpeedup c = c)
  /\ (maybeScheduleMaybeSeekOrSpeedup c <> c ->
      exists l range,
        lookahead c = Some l
        /\ getNextSilenceRange l (currentTime (element c))
           = Some (range, false)).
Proof.
  intros O. rewrite maybeScheduleMaybeSeekOrSpeedup_eq. unfold skipToSchedule.
  split.
  - intros l [s e] -> ->. rewrite O. reflexivity.
  - destruct (lookahead c) as [l|]; [|congruence].
    destruct (getNextSilenceRange l _) as [[[s e] pending]|] eqn:R;
      [|congruence].
    rewrite O. destruct pending; [simpl; congruence|].
    intros _. exists l, (s, e). split; [reflexivity|exact R].
Qed.

(** *** Timers *)

Lemma maybeSeekOrSpeedup_timers (seekTo seekScheduledTo : float)
  (c : Controller) :
  exists armed,
    pendingTimers (maybeSeekOrSpeedup seekTo seekScheduledTo c)
    = pendingTimers c ++ armed
    /\ nextTimerHandle (maybeSeekOrSpeedup seekTo seekScheduledTo c)
       = (nextTimerHandle c + Z.of_nat (length armed))%Z
    /\ Forall (fun t => (nextTimerHandle c <= timerId t
                         < nextTimerHandle c + Z.of_nat (length armed))%Z)
         armed.
Proof.
  assert (H0 : exists armed,
    pendingTimers c = pendingTimers c ++ armed
    /\ nextTimerHandle c = (nextTimerHandle c + Z.of_nat (length armed))%Z
    /\ Forall (fun t => (nextTimerHandle c <= timerId t
                         < nextTimerHandle c + Z.of_nat (length armed))%Z)
         armed).
  { exists []. rewrite app_nil_r, Z.add_0_r. auto. }
  unfold Controller.maybeSeekOrSpeedup.
  destruct (mustCancelSeek seekScheduledTo c); [exact H0|].
  destruct (computeWhatToDo_frame seekTo c) as (probes & E & P).
  destruct (computeWhatToDo seekTo c) as [v c1]. simpl in E. subst c1.
  destruct v; cbv zeta.
  - exists probes. simpl. repeat split.
    destruct P as [-> | ->]; repeat constructor; simpl; lia.
  - eexists (probes ++ [_]). simpl. rewrite <- app_assoc. split; [reflexivity|].
    rewrite length_app. simpl. split; [lia|].
    apply Forall_app. split.
    + destruct P as [-> | ->]; repeat constructor; simpl; lia.
    + repeat constructor; simpl; lia.
  - match goal with
    | |- context [onSilenceSkippingSeek ?a ?b ?x] =>
        destruct (onSilenceSkippingSeek_frame a b x) as (t & ->)
    end.
    exists probes. simpl. repeat split.
    destruct P as [-> | ->]; repeat constructor; simpl; lia.
Qed.

(** Past its guards, the scheduler has dropped the timers that carry the
    stored handle, and whatever it armed carries a new one. *)
Lemma maybeScheduleMaybeSeekOrSpeedup_timers (c : Controller) :
  skipToSchedule c <> None ->
  exists armed,
    pendingTimers (maybeScheduleMaybeSeekOrSpeedup c)
    = filter (fun t => negb (timerId t =? maybeSeekOrSpeedupTimeoutId c)%Z)
        (pendingTimers c) ++ armed
    /\ Forall (fun t => (nextTimerHandle c <= timerId t)%Z) armed.
Proof.
  intros G. rewrite maybeScheduleMaybeSeekOrSpeedup_eq.
  destruct (skipToSchedule c) as [[seekTo seekAt]|]; [|congruence].
  cbv zeta. destruct (_ <=? 0).
  - destruct (maybeSeekOrSpeedup_timers seekTo seekAt
                (clearTimeout (maybeSeekOrSpeedupTimeoutId c) c))
      as (armed & E & _ & F).
    exists armed. split; [exact E|].
    eapply Forall_impl; [|exact F]. simpl. intros t H. lia.
  - eexists [_]. split; [reflexivity|]. repeat constructor. simpl. lia.
Qed.

(** [skipToSchedule] finds nothing exactly in the three early returns. *)
Lemma skipToSchedule_None (c : Controller) :
  skipToSchedule c = None <-> returnsEarly c.
Proof.
  unfold skipToSchedule, returnsEarly. split.
  - destruct (lookahead c) as [l|]; [|auto].
    destruct (getNextSilenceRange l _) as [[[s e] pending]|] eqn:R; [|eauto].
    destruct pending.
    + rewrite andb_true_r. cbn [andb].
      destruct (isOppositeDay (settings c)) eqn:O.
      * intros _. right. right. exists l, (s, e). auto.
      * destruct (_ <? 3) eqn:A; [|discriminate].
        intros _. right. right. exists l, (s, e). auto.
    + rewrite andb_false_r. discriminate.
  - intros [-> | [(l & -> & ->) | (l & [s e] & -> & -> & H)]]; try reflexivity.
    cbn [fst snd] in H. rewrite andb_true_r. cbn [andb].
    destruct H as [-> | ->]; [reflexivity|].
    destruct (isOppositeDay (settings c)); reflexivity.
Qed.

(** C10. When the scheduler returns early (no next range is known, the
    range is pending in opposite-day mode, or the skippable part of a
    pending range is shorter than 3) the controller is returned as it was,
    the armed timer still pending; when a range gets past these guards,
    the timers pending before the call are all still pending after it,
    except those carrying the stored handle [maybeSeekOrSpeedupTimeoutId],
    which are gone, whether the engine was then called at once or a new
    timer was armed. *)
Theorem armed_timer_is_cancelled_exactly_past_the_guards (c : Controller) :
  (returnsEarly c -> maybeScheduleMaybeSeekOrSpeedup c = c)
  /\ (~ returnsEarly c -> handlesAreFresh c ->
      forall t, In t (pendingTimers c) ->
        (In t (pendingTimers (maybeScheduleMaybeSeekOrSpeedup c))
         <-> timerId t <> maybeSeekOrSpeedupTimeoutId c)).
Proof.
  rewrite <- skipToSchedule_None. split.
  - intros G. rewrite maybeScheduleMaybeSeekOrSpeedup_eq, G. reflexivity.
  - intros G W t T.
    destruct (maybeScheduleMaybeSeekOrSpeedup_timers c G) as (armed & -> & F).
    rewrite in_app_iff, filter_In, negb_true_iff, Z.eqb_neq.
    unfold handlesAreFresh in W. rewrite Forall_forall in W, F.
    specialize (W t T). split.
    + intros [[_ N]|A]; [exact N|]. specialize (F t A). simpl in *. lia.
    + intros N. left. split; assumption.
Qed.

(** Handles stay fresh, whatever the controller reacts to. *)
Lemma clearTimeout_fresh (id : Z) (c : Controller) :
  handlesAreFresh c -> handlesAreFresh (clearTimeout id c).
Proof.
  unfold handlesAreFresh. simpl. rewrite !Forall_forall.
  intros H t T. apply filter_In in T. apply H, T.
Qed.

Lemma maybeSeekOrSpeedup_fresh_handles (seekTo seekScheduledTo : float)
  (c : Controller) :
  handlesAreFresh c ->
  handlesAreFresh (maybeSeekOrSpeedup seekTo seekScheduledTo c).
Proof.
  unfold handlesAreFresh.
  destruct (maybeSeekOrSpeedup_timers seekTo seekScheduledTo c)
    as (armed & -> & -> & F).
  intros H. apply Forall_app. split.
  - eapply Forall_impl; [|exact H]. simpl. lia.
  - eapply Forall_impl; [|exact F]. simpl. lia.
Qed.

Lemma react_fresh_handles (r : Reaction) (c : Controller) :
  handlesAreFresh c -> handlesAreFresh (react r c).
Proof.
  intros H. destruct r as [|t|e|n]; simpl.
  - rewrite maybeScheduleMaybeSeekOrSpeedup_eq.
    destruct (skipToSchedule c) as [[seekTo seekAt]|]; [|exact H].
    cbv zeta. destruct (_ <=? 0).
    + apply maybeSeekOrSpeedup_fresh_handles, clearTimeout_fresh, H.
    + apply (clearTimeout_fresh (maybeSeekOrSpeedupTimeoutId c)) in H.
      unfold handlesAreFresh in *. simpl in *. apply Forall_app. split.
      * eapply Forall_impl; [|exact H]. simpl. lia.
      * repeat constructor. simpl. lia.
  - unfold Controller.fireTimer.
    apply (clearTimeout_fresh (timerId t)) in H.
    destruct (timerHandler t); simpl.
    + apply maybeSeekOrSpeedup_fresh_handles, H.
    + exact H.
    + exact H.
    + exact H.
  - destruct (handleEvent e _); exact H.
  - exact H.
Qed.

(** *** Speeding up *)


(** *** Seeking, and doing nothing *)

(** X1. With the desync workaround off, when neither seeking nor speeding
    up saves time ([canSaveTimeBySeeking <= 0] and
    [canSaveTimeBySpeedingUp <= 0]) the verdict is NOTHING and the
    invocation returns the controller as it found it. *)
Theorem nothing_to_gain_changes_nothing (seekTo seekScheduledTo : float)
  (c : Controller) :
  browserHasAudioDesyncBug && enableDesyncCorrection (settings c) = false ->
  (canSaveTimeBySeeking seekTo c <=? 0) = true ->
  (canSaveTimeBySpeedingUp seekTo c <=? 0) = true ->
  whatToDo seekTo c = NOTHING
  /\ maybeSeekOrSpeedup seekTo seekScheduledTo c = c.
Proof.
  intros W A B.
  assert (E : computeWhatToDo seekTo c = (NOTHING, c)).
  { unfold Controller.computeWhatToDo, Controller.ifNeedForceSeekThenSeekElse,
      Controller.needForceSeekForDesyncCorrection.
    rewrite W, A, B. destruct (_ >? _); reflexivity. }
  split.
  - unfold Controller.whatToDo. rewrite E. reflexivity.
  - unfold Controller.maybeSeekOrSpeedup. rewrite E.
    destruct (mustCancelSeek seekScheduledTo c); reflexivity.
Qed.

(** X2. An invocation that is not stale and whose verdict is SEEK sets
    [currentTime] to the destination, leaves the playback rate, records
    the seek as [[seekScheduledTo, seekTo]] and reports the media time
    skipped and the expected seek duration to the tracker of the time
    saved, when there is one. *)
Theorem seek_sets_position_and_reports (seekTo seekScheduledTo : float)
  (c : Controller) :
  mustCancelSeek seekScheduledTo c = false ->
  whatToDo seekTo c = SEEK ->
  let c' := maybeSeekOrSpeedup seekTo seekScheduledTo c in
  currentTime (element c') = seekTo
  /\ paused (element c') = paused (element c)
  /\ playbackRate (element c') = playbackRate (element c)
  /\ _lastSilenceSkippingSeek c' = Some (seekScheduledTo, seekTo)
  /\ timeSavedTracker c'
     = option_map
         (fun calls =>
            calls ++ [(seekTo - currentTime (element c),
                       expectedSeekDuration c)])
         (timeSavedTracker c).
Proof.
  intros S V. cbv zeta. unfold Controller.maybeSeekOrSpeedup. rewrite S.
  unfold Controller.whatToDo in V.
  destruct (computeWhatToDo_frame seekTo c) as (probes & E & _).
  destruct (computeWhatToDo seekTo c) as [v c1]. simpl in V, E. subst v c1.
  cbv zeta. unfold onSilenceSkippingSeek. simpl timeSavedTracker.
  destruct (timeSavedTracker c) eqn:T; repeat split; simpl; exact T.
Qed.

End Engine.

(** C1, as the specification states it, fails here. With five seconds of
    silence left, seeks expected to take nine and ten speedups since the
    last seek, the invocation is not stale, steps 1 to 3 do not apply and
    the rule that spares SPEEDUP says SPEEDUP; the engine's verdict is
    SEEK, forced by the desync test. *)
Lemma forced_seek_overrides_speedup :
  mustCancelSeek 15 tenSpeedupsWithoutSeek = false
  /\ needForceSeekForDesyncCorrection true 20 tenSpeedupsWithoutSeek = true
  /\ decisionRuleSparingSpeedup
       (canSaveTimeBySeeking 20 tenSpeedupsWithoutSeek)
       (canSaveTimeBySpeedingUp true 20 tenSpeedupsWithoutSeek)
       (realTimeLeftUntilDestinationAtSilenceSpeed 20 tenSpeedupsWithoutSeek)
       (needForceSeekForDesyncCorrection true 20 tenSpeedupsWithoutSeek)
     = SPEEDUP
  /\ whatToDo true false 20 tenSpeedupsWithoutSeek = SEEK.
Proof. repeat split; vm_compute; reflexivity. Qed.

(** With no speedup since the last seek the same controller may speed
    up: step 4 yields SPEEDUP when the desync test does not force a
    seek. *)
Example speedup_when_the_seek_is_not_forced :
  whatToDo true false 20
    (set_didNotDoDesyncCorrectionForNSpeedSwitches 0 tenSpeedupsWithoutSeek)
  = SPEEDUP.
Proof. vm_compute. reflexivity. Qed.

(** C2, as the specification states it, fails here. After a ['seeked']
    stamped before its ['seeking'] the estimate is -1000 ms. The element
    is at 19 and the invocation, which is not stale, is for a destination
    at 17: seeking saves more than speeding up but no time, so the
    decision is left to the closure. Its divisor
    [expectedSeekDuration || Number.MIN_VALUE] is the negative duration,
    not [Number.MIN_VALUE]: the closure forces the seek, the element is
    sent to 17, and the test with [max] would not have forced it. *)
Lemma forced_seek_test_differs_on_negative_estimate :
  handleEvents backwardTimeStamps (create 0)
  = Some (seekDurationProphet negativeEstimate)
  /\ mustCancelSeek 19 negativeEstimate = false
  /\ (canSaveTimeBySeeking 17 negativeEstimate
      >? canSaveTimeBySpeedingUp true 17 negativeEstimate) = true
  /\ (canSaveTimeBySeeking 17 negativeEstimate <=? 0) = true
  /\ needForceSeekForDesyncCorrection true 17 negativeEstimate = true
  /\ forcedSeekTest
       (true && enableDesyncCorrection (settings negativeEstimate))
       (_didNotDoDesyncCorrectionForNSpeedSwitches negativeEstimate)
       (realTimeLeftUntilDestinationAtNormalSpeed 17 negativeEstimate)
       (expectedSeekDuration negativeEstimate)
     = false
  /\ whatToDo true false 17 negativeEstimate = SEEK
  /\ currentTime
       (element
          (maybeSeekOrSpeedup true false speedUnchanged 17 19
             negativeEstimate))
     = 17.
Proof. repeat split; vm_compute; reflexivity. Qed.

(** C2, as amended, at work: five seconds of silence left, a seek
    expected to take nine and ten speedups since the last seek. Speeding
    up saves more than seeking, so the decision is left to the closure,
    which forces the seek. *)
Lemma forced_seek_test_witness :
  (0 <=? expectedSeekDuration tenSpeedupsWithoutSeek) = true
  /\ (canSaveTimeBySeeking 20 tenSpeedupsWithoutSeek
      >? canSaveTimeBySpeedingUp true 20 tenSpeedupsWithoutSeek) = false
  /\ needForceSeekForDesyncCorrection true 20 tenSpeedupsWithoutSeek = true.
Proof.
  split; [vm_compute; reflexivity|]. split; [vm_compute; reflexivity|].
  rewrite (proj2 (forced_seek_test true 20 tenSpeedupsWithoutSeek));
    vm_compute; reflexivity.
Defined.

(** C3 at work: the forced seek of [tenSpeedupsWithoutSeek] takes the
    budget from 10 to 0, and the speedup of [silenceAhead] from 0 to 1. *)
Lemma budget_resets_on_seek_and_counts_speedups_witness :
  _didNotDoDesyncCorrectionForNSpeedSwitches
    (maybeSeekOrSpeedup true false speedUnchanged 20 15 tenSpeedupsWithoutSeek)
  = 0
  /\ _didNotDoDesyncCorrectionForNSpeedSwitches
       (maybeSeekOrSpeedup false false speedUnchanged 20 10 silenceAhead)
     = 0 + 1.
Proof.
  split.
  - pose proof (proj1 (budget_resets_on_seek_and_counts_speedups
                         true false speedUnchanged)
                  20 15 tenSpeedupsWithoutSeek eq_refl) as H.
    cbv zeta in H.
    replace (whatToDo true false 20 tenSpeedupsWithoutSeek) with SEEK in H
      by (vm_compute; reflexivity).
    exact (proj1 H).
  - pose proof (proj1 (budget_resets_on_seek_and_counts_speedups
                         false false speedUnchanged)
                  20 10 silenceAhead eq_refl) as H.
    cbv zeta in H.
    replace (whatToDo false false 20 silenceAhead) with SPEEDUP in H
      by (vm_compute; reflexivity).
    exact H.
Defined.

(** C6 at work: a pending range from 10 to 20 seen from 10 gives [seekAt
    = 10] and [seekTo = 17], and the engine is called at once; a pending
    range from 10 to 12 leaves less than 3 to skip, and nothing happens. *)
Lemma scheduler_computes_seekAt_and_seekTo_witness :
  maybeScheduleMaybeSeekOrSpeedup false false speedUnchanged pendingLong
  = maybeSeekOrSpeedup false false speedUnchanged 17 10
      (clearTimeout (-1) pendingLong)
  /\ maybeScheduleMaybeSeekOrSpeedup false false speedUnchanged pendingShort
     = pendingShort.
Proof.
  split.
  - rewrite (proj2 (scheduler_computes_seekAt_and_seekTo false false
                      speedUnchanged pendingLong
                      (lookaheadReporting (10, 20) true) 10 20 true
                      eq_refl eq_refl));
      vm_compute; reflexivity.
  - apply (proj1 (scheduler_computes_seekAt_and_seekTo false false
                    speedUnchanged pendingShort
                    (lookaheadReporting (10, 12) true) 10 12 true
                    eq_refl eq_refl));
      vm_compute; reflexivity.
Defined.

(** C7 at work: the call was scheduled for position 10 and finds the
    element at 11. *)
Lemma stale_invocation_is_a_no_op_witness :
  (Js.Math_abs (currentTime (element driftedAway) - 10) >? 0.5) = true
  /\ maybeSeekOrSpeedup false false speedUnchanged 20 10 driftedAway
     = driftedAway.
Proof.
  split; [vm_compute; reflexivity|].
  apply stale_invocation_is_a_no_op. right. vm_compute. reflexivity.
Defined.

(** C8 at work. *)
Lemma opposite_day_schedules_final_ranges_only_witness :
  isOppositeDay (settings oppositeDayPending) = true
  /\ maybeScheduleMaybeSeekOrSpeedup false false speedUnchanged
       oppositeDayPending
     = oppositeDayPending.
Proof.
  split; [reflexivity|].
  apply (proj1 (opposite_day_schedules_final_ranges_only false false
                  speedUnchanged oppositeDayPending eq_refl)
           (lookaheadReporting (10, 20) true) (10, 20));
    reflexivity.
Defined.


Example timeupdate_at_the_silence_speeds_up :
  pendingTimers
    (maybeScheduleMaybeSeekOrSpeedup false false speedUnchanged silenceAhead)
  = [mkTimer 1 setSpeedSoundedLater 2500].
Proof. vm_compute. reflexivity. Qed.

(** C10 at work. The first ['timeupdate'] armed a timer under handle 1.
    At the start of the silence the scheduler calls the engine at once,
    and the timer is gone all the same; had the range been unknown, it
    would still be pending. *)
Lemma armed_timer_is_cancelled_exactly_past_the_guards_witness :
  In theArmedTimer (pendingTimers atTheSilence)
  /\ maybeSeekOrSpeedupTimeoutId atTheSilence = 1%Z
  /\ ~ In theArmedTimer
        (pendingTimers
           (maybeScheduleMaybeSeekOrSpeedup false false speedUnchanged
              atTheSilence)).
Proof.
  assert (T : In theArmedTimer (pendingTimers atTheSilence)).
  { left. vm_compute. reflexivity. }
  split; [exact T|]. split; [vm_compute; reflexivity|].
  intros A.
  apply (proj2 (armed_timer_is_cancelled_exactly_past_the_guards false false
                  speedUnchanged atTheSilence)) in A.
  - apply A. vm_compute. reflexivity.
  - rewrite <- skipToSchedule_None. vm_compute. discriminate.
  - repeat constructor.
  - exact T.
Defined.

Example timer_is_replaced_a_quarter_second_later :
  pendingTimers
    (maybeScheduleMaybeSeekOrSpeedup false false speedUnchanged
       aQuarterSecondLater)
  = [mkTimer 2 (maybeSeekOrSpeedupBounded 20 10) 4750].
Proof. vm_compute. reflexivity. Qed.

(** X1 at work. *)
Lemma nothing_to_gain_changes_nothing_witness :
  whatToDo false false 20 nothingToGain = NOTHING
  /\ maybeSeekOrSpeedup false false speedUnchanged 20 10 nothingToGain
     = nothingToGain.
Proof.
  apply nothing_to_gain_changes_nothing; vm_compute; reflexivity.
Defined.

(** X2 at work: the tracker is told of ten seconds skipped by a seek
    expected to take half a second. *)
Lemma seek_sets_position_and_reports_witness :
  currentTime
    (element (maybeSeekOrSpeedup false false speedUnchanged 20 10 trackedSeek))
  = 20
  /\ timeSavedTracker
       (maybeSeekOrSpeedup false false speedUnchanged 20 10 trackedSeek)
     = Some [(10, 0.5)].
Proof.
  destruct (seek_sets_position_and_reports false false speedUnchanged
              20 10 trackedSeek)
    as (P & _ & _ & _ & T); [vm_compute; reflexivity..|].
  split; [exact P|]. rewrite T. vm_compute. reflexivity.
Defined.

End ControllerFacts.

(** ** More on the verdict and on stale invocations *)

Module EngineProperties.
Import Prophet Controller EngineSpec Scenarios Binary64Facts ControllerFacts.
Local Open Scope float_scope.

Lemma ltb_leb (x y : float) : (x <? y) = true -> (x <=? y) = true.
Proof.
  rewrite ltb_spec, leb_spec. unfold SFltb, SFleb.
  destruct (SFcompare (Prim2SF x) (Prim2SF y)) as [[]|]; congruence.
Qed.

(** Below or at a bound, hence not above it. *)
Lemma leb_not_gtb (x y : float) : (x <=? y) = true -> (x >? y) = false.
Proof.
  intros H. destruct (leb_true_not_nan _ _ H) as [Hx Hy].
  rewrite (leb_negb_ltb _ _ Hx Hy) in H. unfold Js.gtb.
  destruct (y <? x); [discriminate H|reflexivity].
Qed.

Section Engine.

Variable browserHasAudioDesyncBug : bool.
Variable IS_DEV_MODE : bool.
Variable maybeClosestNonNormalSpeed : float -> float -> float.

Abbreviation whatToDo := (whatToDo browserHasAudioDesyncBug IS_DEV_MODE).
Abbreviation canSaveTimeBySpeedingUp :=
  (canSaveTimeBySpeedingUp browserHasAudioDesyncBug).
Abbreviation needForceSeekForDesyncCorrection :=
  (needForceSeekForDesyncCorrection browserHasAudioDesyncBug).
Abbreviation maybeSeekOrSpeedup :=
  (maybeSeekOrSpeedup browserHasAudioDesyncBug IS_DEV_MODE
     maybeClosestNonNormalSpeed).

(** X3. Every verdict has its reason. The engine does nothing only when
    no seek is forced, seeking would not save time and speeding up would
    not either or would be too short to time; it seeks only when the
    desync test forces it or seeking saves time; it speeds up only when no
    seek is forced, speeding up is not found to save nothing, seeking is
    not found to save more, and the speedup is not too short to time. *)
Theorem every_verdict_has_its_reason (seekTo : float) (c : Controller) :
  match whatToDo seekTo c with
  | NOTHING =>
      needForceSeekForDesyncCorrection seekTo c = false
      /\ (canSaveTimeBySeeking seekTo c >? 0) = false
      /\ ((canSaveTimeBySpeedingUp seekTo c <=? 0) = true
          \/ speedupCanOvershoot seekTo c = true)
  | SEEK =>
      needForceSeekForDesyncCorrection seekTo c = true
      \/ (canSaveTimeBySeeking seekTo c >? 0) = true
  | SPEEDUP =>
      needForceSeekForDesyncCorrection seekTo c = false
      /\ (canSaveTimeBySpeedingUp seekTo c <=? 0) = false
      /\ (canSaveTimeBySeeking seekTo c >? canSaveTimeBySpeedingUp seekTo c)
         = false
      /\ speedupCanOvershoot seekTo c = false
  end.
Proof.
  rewrite whatToDo_eq. unfold ifNeedForceSeekThenSeekElse.
  set (A := canSaveTimeBySeeking seekTo c).
  set (B := canSaveTimeBySpeedingUp seekTo c).
  destruct (A >? B) eqn:AB.
  - destruct (A <=? 0) eqn:A0.
    + destruct (needForceSeekForDesyncCorrection seekTo c); [auto|].
      split; [reflexivity|]. split; [apply leb_not_gtb, A0|].
      left. eapply leb_trans; [apply ltb_leb, AB|exact A0].
    + right. rewrite (gtb_zero_negb_leb _ _ AB) in A0.
      destruct (A >? 0); [reflexivity|discriminate A0].
  - destruct (B <=? 0) eqn:B0.
    + destruct (needForceSeekForDesyncCorrection seekTo c); [auto|].
      split; [reflexivity|]. split; [|auto].
      destruct (A >? 0) eqn:A0; [|reflexivity].
      destruct (ltb_true_not_nan _ _ A0) as [_ NA].
      destruct (leb_true_not_nan _ _ B0) as [NB _].
      assert (LE : (A <=? B) = true).
      { rewrite (leb_negb_ltb _ _ NA NB). unfold Js.gtb in AB.
        rewrite AB. reflexivity. }
      pose proof (leb_not_gtb _ _ (leb_trans _ _ _ LE B0)). congruence.
    + destruct (speedupCanOvershoot seekTo c) eqn:O.
      * destruct (A >? 0) eqn:A0; [auto|].
        destruct (needForceSeekForDesyncCorrection seekTo c); auto.
      * destruct (needForceSeekForDesyncCorrection seekTo c); auto.
Qed.


End Engine.

(** X3 at work: the three verdicts, on controllers met above. *)
Lemma every_verdict_has_its_reason_witness :
  (whatToDo false false 20 nothingToGain = NOTHING
   /\ (canSaveTimeBySeeking 20 nothingToGain >? 0) = false)
  /\ (whatToDo true false 20 tenSpeedupsWithoutSeek = SEEK
      /\ needForceSeekForDesyncCorrection true 20 tenSpeedupsWithoutSeek = true)
  /\ (whatToDo false false 20 silenceAhead = SPEEDUP
      /\ (canSaveTimeBySpeedingUp false 20 silenceAhead <=? 0) = false).
Proof.
  pose proof (every_verdict_has_its_reason false false 20 nothingToGain) as N.
  pose proof (every_verdict_has_its_reason false false 20 silenceAhead) as U.
  replace (whatToDo false false 20 nothingToGain) with NOTHING in N
    by (vm_compute; reflexivity).
  replace (whatToDo false false 20 silenceAhead) with SPEEDUP in U
    by (vm_compute; reflexivity).
  split; [|split].
  - split; [vm_compute; reflexivity|apply N].
  - split; vm_compute; reflexivity.
  - split; [vm_compute; reflexivity|apply U].
Defined.


End EngineProperties.

(** ** The timer table, through every event *)

Module TimerFacts.
Import Prophet Controller EngineSpec Lifecycle Scenarios LifecycleScenarios
  ControllerFacts.
Local Open Scope float_scope.

Lemma cancelling_keeps_handles_distinct (keep : Timer -> bool)
  (timers : list Timer) :
  NoDup (map timerId timers) -> NoDup (map timerId (filter keep timers)).
Proof.
  intros D. induction timers as [|t ts IH]; [constructor|].
  simpl in D. apply NoDup_cons_iff in D. destruct D as [N D].
  simpl. destruct (keep t); [|exact (IH D)].
  simpl. apply NoDup_cons; [|exact (IH D)].
  rewrite in_map_iff in *. intros (t' & E & I).
  apply filter_In in I. apply N. exists t'. tauto.
Qed.

(** Only the table, the next handle and the stored handle matter. *)
Lemma timersInOrder_ext (c c' : Controller) :
  pendingTimers c' = pendingTimers c ->
  nextTimerHandle c' = nextTimerHandle c ->
  maybeSeekOrSpeedupTimeoutId c' = maybeSeekOrSpeedupTimeoutId c ->
  timersInOrder c -> timersInOrder c'.
Proof.
  intros T N S [F D O K]. split; rewrite ?T, ?N, ?S; auto.
Qed.

Lemma clearTimeout_inOrder (id : Z) (c : Controller) :
  timersInOrder c -> timersInOrder (clearTimeout id c).
Proof.
  intros [F D O K]. split; simpl.
  - rewrite Forall_forall in *. intros t T. apply filter_In in T. apply F, T.
  - apply cancelling_keeps_handles_distinct, D.
  - exact O.
  - intros t T. apply filter_In in T. apply K, T.
Qed.

(** Adding a timer that does not call [maybeSeekOrSpeedup], under the next
    handle. *)
Lemma arm_other_inOrder (c c' : Controller) (t : Timer) :
  pendingTimers c' = pendingTimers c ++ [t] ->
  nextTimerHandle c' = (nextTimerHandle c + 1)%Z ->
  maybeSeekOrSpeedupTimeoutId c' = maybeSeekOrSpeedupTimeoutId c ->
  timerId t = nextTimerHandle c -> isDecisionTimer t = false ->
  timersInOrder c -> timersInOrder c'.
Proof.
  intros T N S I H [F D O K]. split; rewrite ?T, ?N, ?S.
  - apply Forall_app. split.
    + eapply Forall_impl; [|exact F]. simpl. lia.
    + repeat constructor. lia.
  - rewrite map_app. simpl.
    apply NoDup_app; [exact D|repeat constructor; simpl; tauto|].
    intros x X [<-|[]]. rewrite Forall_forall in F.
    apply in_map_iff in X. destruct X as (y & E & Y). specialize (F y Y). lia.
  - lia.
  - intros x X. apply in_app_iff in X. destruct X as [X|[<-|[]]].
    + apply K, X.
    + rewrite H, I. split; [discriminate|lia].
Qed.

(** For a step that leaves the table and the two handles alone. *)
Ltac same_timers H :=
  match type of H with
  | timersInOrder ?c =>
      apply (timersInOrder_ext c);
      [reflexivity|reflexivity|reflexivity|exact H]
  end.

(** *** The throttle's timer *)

Lemma throttleTimerId_pending (c : Controller) (id : Z) :
  throttleTimerId c = Some id ->
  exists t, In t (pendingTimers c) /\ isThrottleTimer t = true
            /\ timerId t = id.
Proof.
  unfold throttleTimerId. destruct (find _ _) as [t|] eqn:F; [|discriminate].
  intros [= <-]. apply find_some in F. exists t. tauto.
Qed.

Lemma arm_throttle_inOrder (delayMs : float) (c : Controller) :
  timersInOrder c ->
  timersInOrder (snd (setTimeout throttleTimerExpired delayMs c)).
Proof.
  intros H.
  apply (arm_other_inOrder c _
           (mkTimer (nextTimerHandle c) throttleTimerExpired delayMs));
    auto.
Qed.

Lemma _throttledInitLookahead_inOrder (rebuilt : option Lookahead)
  (c : Controller) :
  timersInOrder c -> timersInOrder (_throttledInitLookahead rebuilt c).
Proof.
  intros H. unfold _throttledInitLookahead.
  destruct rebuilt as [l|].
  - cbv zeta.
    assert (H1 : timersInOrder
                   match throttleTimerId c with
                   | Some id => clearTimeout id c
                   | None => c
                   end)
      by (destruct (throttleTimerId c); auto using clearTimeout_inOrder).
    apply (arm_throttle_inOrder 1000) in H1. same_timers H1.
  - destruct (throttleTimerId c); auto using arm_throttle_inOrder.
Qed.

Lemma destroyAndThrottledInitLookahead_inOrder (rebuilt : option Lookahead)
  (c : Controller) :
  timersInOrder c ->
  timersInOrder (destroyAndThrottledInitLookahead rebuilt c).
Proof.
  intros H. apply _throttledInitLookahead_inOrder. same_timers H.
Qed.

Lemma trailingInitLookahead_inOrder (l : Lookahead) (c : Controller) :
  timersInOrder c -> timersInOrder (trailingInitLookahead l c).
Proof.
  intros H. unfold trailingInitLookahead.
  destruct (throttleTimerId c) as [id|]; [|exact H].
  apply (clearTimeout_inOrder id) in H. same_timers H.
Qed.

Lemma restartThrottleTimer_inOrder (remainingWaitMs : float)
  (c : Controller) :
  timersInOrder c -> timersInOrder (restartThrottleTimer remainingWaitMs c).
Proof.
  intros H. unfold restartThrottleTimer.
  destruct (throttleTimerId c) as [id|]; [|exact H].
  apply arm_throttle_inOrder, clearTimeout_inOrder, H.
Qed.

Section Engine.

Variable browserHasAudioDesyncBug : bool.
Variable IS_DEV_MODE : bool.
Variable maybeClosestNonNormalSpeed : float -> float -> float.

Abbreviation whatToDo := (whatToDo browserHasAudioDesyncBug IS_DEV_MODE).
Abbreviation computeWhatToDo :=
  (computeWhatToDo browserHasAudioDesyncBug IS_DEV_MODE).
Abbreviation maybeSeekOrSpeedup :=
  (maybeSeekOrSpeedup browserHasAudioDesyncBug IS_DEV_MODE
     maybeClosestNonNormalSpeed).
Abbreviation maybeScheduleMaybeSeekOrSpeedup :=
  (maybeScheduleMaybeSeekOrSpeedup browserHasAudioDesyncBug IS_DEV_MODE
     maybeClosestNonNormalSpeed).
Abbreviation react :=
  (react browserHasAudioDesyncBug IS_DEV_MODE maybeClosestNonNormalSpeed).
Abbreviation handle :=
  (handle browserHasAudioDesyncBug IS_DEV_MODE maybeClosestNonNormalSpeed).
Abbreviation run :=
  (run browserHasAudioDesyncBug IS_DEV_MODE maybeClosestNonNormalSpeed).
Abbreviation _setStateAccordingToNewSettings :=
  (_setStateAccordingToNewSettings browserHasAudioDesyncBug IS_DEV_MODE
     maybeClosestNonNormalSpeed).

(** An invocation of the engine arms one timer at most, never one that
    calls [maybeSeekOrSpeedup], and keeps the stored handle. *)
Lemma maybeSeekOrSpeedup_arms (seekTo seekScheduledTo : float)
  (c : Controller) :
  let c' := maybeSeekOrSpeedup seekTo seekScheduledTo c in
  maybeSeekOrSpeedupTimeoutId c' = maybeSeekOrSpeedupTimeoutId c
  /\ ((pendingTimers c' = pendingTimers c
       /\ nextTimerHandle c' = nextTimerHandle c)
      \/ exists t,
           pendingTimers c' = pendingTimers c ++ [t]
           /\ nextTimerHandle c' = (nextTimerHandle c + 1)%Z
           /\ timerId t = nextTimerHandle c
           /\ isDecisionTimer t = false).
Proof.
  cbv zeta. unfold Controller.maybeSeekOrSpeedup.
  destruct (mustCancelSeek seekScheduledTo c); [auto|].
  destruct (whatToDo seekTo c) eqn:V.
  - destruct (computeWhatToDo_frame browserHasAudioDesyncBug IS_DEV_MODE
                seekTo c) as (probes & E & P).
    unfold Controller.whatToDo in V.
    destruct (computeWhatToDo seekTo c) as [v c1]. simpl in V, E. subst v c1.
    split; [reflexivity|]. destruct P as [-> | ->]; simpl.
    + left. rewrite app_nil_r, Z.add_0_r. auto.
    + right. eexists. repeat split.
  - rewrite (computeWhatToDo_SPEEDUP _ _ _ _ V). cbv zeta.
    split; [reflexivity|]. right. eexists. repeat split.
  - destruct (computeWhatToDo_frame browserHasAudioDesyncBug IS_DEV_MODE
                seekTo c) as (probes & E & P).
    unfold Controller.whatToDo in V.
    destruct (computeWhatToDo seekTo c) as [v c1]. simpl in V, E. subst v c1.
    cbv zeta.
    match goal with
    | |- context [onSilenceSkippingSeek ?a ?b ?x] =>
        destruct (onSilenceSkippingSeek_frame a b x) as (t & ->)
    end.
    split; [reflexivity|]. destruct P as [-> | ->]; simpl.
    + left. rewrite app_nil_r, Z.add_0_r. auto.
    + right. eexists. repeat split.
Qed.

Lemma maybeSeekOrSpeedup_inOrder (seekTo seekScheduledTo : float)
  (c : Controller) :
  timersInOrder c -> timersInOrder (maybeSeekOrSpeedup seekTo seekScheduledTo c).
Proof.
  intros H.
  destruct (maybeSeekOrSpeedup_arms seekTo seekScheduledTo c)
    as (S & [[T N]|(t & T & N & I & D)]).
  - eapply timersInOrder_ext; eauto.
  - eapply arm_other_inOrder; eauto.
Qed.

Lemma maybeScheduleMaybeSeekOrSpeedup_inOrder (c : Controller) :
  timersInOrder c -> timersInOrder (maybeScheduleMaybeSeekOrSpeedup c).
Proof.
  intros H. rewrite maybeScheduleMaybeSeekOrSpeedup_eq.
  destruct (skipToSchedule c) as [[seekTo seekAt]|]; [|exact H].
  cbv zeta. destruct (_ <=? 0).
  - apply maybeSeekOrSpeedup_inOrder, clearTimeout_inOrder, H.
  - destruct H as [F D O K]. split; simpl.
    + apply Forall_app. split.
      * rewrite Forall_forall in *. intros t T. apply filter_In in T.
        destruct T as [T _]. specialize (F t T). lia.
      * repeat constructor. simpl. lia.
    + rewrite map_app. simpl.
      apply NoDup_app;
        [apply cancelling_keeps_handles_distinct, D|repeat constructor; simpl; tauto|].
      intros x X [<-|[]]. rewrite Forall_forall in F.
      apply in_map_iff in X. destruct X as (y & E & Y).
      apply filter_In in Y. destruct Y as [Y _]. specialize (F y Y). lia.
    + lia.
    + intros t T. apply in_app_iff in T. destruct T as [T|[<-|[]]].
      * apply filter_In in T. destruct T as [T N].
        apply negb_true_iff, Z.eqb_neq in N.
        rewrite Forall_forall in F. specialize (F t T).
        rewrite (K t T). split; intros; [tauto|lia].
      * simpl. tauto.
Qed.

Lemma react_inOrder (r : Reaction) (c : Controller) :
  timersInOrder c -> timersInOrder (react r c).
Proof.
  intros H. destruct r as [|t|e|n]; simpl.
  - apply maybeScheduleMaybeSeekOrSpeedup_inOrder, H.
  - unfold fireTimer.
    apply (clearTimeout_inOrder (timerId t)) in H.
    destruct (timerHandler t); simpl.
    + apply maybeSeekOrSpeedup_inOrder, H.
    + same_timers H.
    + exact H.
    + exact H.
  - destruct (handleEvent e _); [same_timers H|exact H].
  - same_timers H.
Qed.

Lemma _setStateAccordingToNewSettings_inOrder
  (newSettings : ControllerSettings) (oldSettings : option ControllerSettings)
  (rebuilt : option Lookahead) (i : Instance) :
  timersInOrder (controller i) ->
  timersInOrder
    (controller
       (_setStateAccordingToNewSettings newSettings oldSettings rebuilt i)).
Proof.
  intros H. unfold Lifecycle._setStateAccordingToNewSettings.
  set (i3 := onController _ (setDefaultPlaybackRateAndRememberIt _ _)).
  assert (H3 : timersInOrder (controller i3)) by same_timers H.
  clearbody i3.
  set (i4 := if lookaheadSettingsChanged _ _ then _ else _).
  assert (H4 : timersInOrder (controller i4)).
  { unfold i4. destruct (lookaheadSettingsChanged _ _); [|exact H3].
    apply destroyAndThrottledInitLookahead_inOrder, H3. }
  clearbody i4.
  destruct (soundedSpeedChanged _ _); [|exact H4]. simpl.
  apply maybeScheduleMaybeSeekOrSpeedup_inOrder, clearTimeout_inOrder, H4.
Qed.

Lemma handle_inOrder (e : Event) (i : Instance) :
  timersInOrder (controller i) -> timersInOrder (controller (handle e i)).
Proof.
  intros H.
  destruct e as [r|el|rebuilt now| |l|newSettings rebuilt| |w];
    [simpl|simpl|simpl|simpl|simpl|simpl| |simpl].
  - apply react_inOrder, H.
  - same_timers H.
  - apply (destroyAndThrottledInitLookahead_inOrder rebuilt) in H.
    same_timers H.
  - same_timers H.
  - apply trailingInitLookahead_inOrder, H.
  - unfold updateSettingsAndMaybeCreateNewInstance.
    destruct (initialized i); [|exact H].
    apply _setStateAccordingToNewSettings_inOrder, H.
  - unfold Lifecycle.handle, finishInit. cbv zeta. cbn [controller].
    apply _setStateAccordingToNewSettings_inOrder.
    destruct (_pendingSettingsUpdates i); [same_timers H|exact H].
  - apply restartThrottleTimer_inOrder, H.
Qed.

Lemma run_inOrder (es : list Event) : forall i,
  timersInOrder (controller i) -> timersInOrder (controller (run es i)).
Proof.
  induction es as [|e es IH]; intros i H; simpl; [exact H|].
  apply IH, handle_inOrder, H.
Qed.

(** *** One decision pending at most *)

Lemma one_handle_one_timer (p : Timer -> bool) (k : Z) (l : list Timer) :
  NoDup (map timerId l) ->
  (forall t, In t l -> p t = true -> timerId t = k) ->
  (length (filter p l) <= 1)%nat.
Proof.
  intros D K.
  assert (D' := cancelling_keeps_handles_distinct p l D).
  assert (K' : forall t, In t (filter p l) -> timerId t = k).
  { intros t T. apply filter_In in T. apply K; tauto. }
  destruct (filter p l) as [|a [|b r]]; simpl; try lia.
  exfalso. simpl in D'. inversion D' as [|? ? N _]; subst. apply N.
  left. rewrite (K' a), (K' b); simpl; auto.
Qed.

Lemma empty_table_inOrder (c : Controller) :
  pendingTimers c = [] ->
  (maybeSeekOrSpeedupTimeoutId c < nextTimerHandle c)%Z ->
  timersInOrder c.
Proof.
  intros E O. split; rewrite ?E; simpl; auto using NoDup_nil. intros t [].
Qed.

(** X4. From a controller with no timer pending, whatever events follow
    (position updates, timers firing, seek events, speed switches, source
    changes, settings updates, the end of [init], playback moving on or
    the user acting on the element), one timer at most is
    pending that will call [maybeSeekOrSpeedup], and the pending timers
    that will are exactly those under the stored handle
    [maybeSeekOrSpeedupTimeoutId]. *)
Theorem one_decision_pending_at_most (es : list Event) (i : Instance) :
  pendingTimers (controller i) = [] ->
  (maybeSeekOrSpeedupTimeoutId (controller i)
   < nextTimerHandle (controller i))%Z ->
  let c := controller (run es i) in
  (length (filter isDecisionTimer (pendingTimers c)) <= 1)%nat
  /\ forall t, In t (pendingTimers c) ->
       (isDecisionTimer t = true <-> timerId t = maybeSeekOrSpeedupTimeoutId c).
Proof.
  intros E O. cbv zeta.
  pose proof (empty_table_inOrder _ E O) as H.
  apply (run_inOrder es) in H. destruct H as [F D O' K]. split.
  - apply (one_handle_one_timer _
             (maybeSeekOrSpeedupTimeoutId (controller (run es i))) _ D).
    intros t T. apply K, T.
  - exact K.
Qed.

(** *** The other timers are left alone *)

Lemma same_handle_same_timer (timers : list Timer) (t t0 : Timer) :
  NoDup (map timerId timers) -> In t timers -> In t0 timers ->
  timerId t = timerId t0 -> t = t0.
Proof.
  induction timers as [|x xs IH]; simpl; intros D T T0 E; [contradiction|].
  apply NoDup_cons_iff in D. destruct D as [N D].
  destruct T as [<-|T], T0 as [<-|T0]; auto.
  - exfalso. apply N. rewrite E. apply in_map, T0.
  - exfalso. apply N. rewrite <- E. apply in_map, T.
Qed.

(** The throttle clears its own timer only. *)
Lemma throttleTimerId_other (c : Controller) (id : Z) (t : Timer) :
  NoDup (map timerId (pendingTimers c)) ->
  throttleTimerId c = Some id ->
  In t (pendingTimers c) -> isThrottleTimer t = false -> timerId t <> id.
Proof.
  intros D I T O E.
  destruct (throttleTimerId_pending c id I) as (t0 & T0 & O0 & E0).
  rewrite <- E0 in E.
  rewrite (same_handle_same_timer _ t t0 D T T0 E) in O. congruence.
Qed.

Lemma clearTimeout_pending (id : Z) (t : Timer) (c : Controller) :
  In t (pendingTimers (clearTimeout id c)) <->
  In t (pendingTimers c) /\ timerId t <> id.
Proof.
  simpl. rewrite filter_In, negb_true_iff, Z.eqb_neq. reflexivity.
Qed.

Lemma arm_throttle_pending (delayMs : float) (t : Timer) (c : Controller) :
  isThrottleTimer t = false ->
  (In t (pendingTimers (snd (setTimeout throttleTimerExpired delayMs c)))
   <-> In t (pendingTimers c)).
Proof.
  intros O. simpl. rewrite in_app_iff. split; [|auto].
  intros [T|[<-|[]]]; [exact T|discriminate O].
Qed.

(** A call of the throttled [_initLookahead] leaves the stored handle
    and the timers of the controller as they are. *)
Lemma _throttledInitLookahead_pending (rebuilt : option Lookahead)
  (t : Timer) (c : Controller) :
  NoDup (map timerId (pendingTimers c)) ->
  isThrottleTimer t = false ->
  (In t (pendingTimers (_throttledInitLookahead rebuilt c))
   <-> In t (pendingTimers c)).
Proof.
  intros D O. unfold _throttledInitLookahead.
  destruct rebuilt as [l|]; cbv zeta.
  - change (pendingTimers (_initLookahead l ?x)) with (pendingTimers x).
    rewrite (arm_throttle_pending _ _ _ O).
    destruct (throttleTimerId c) as [id|] eqn:I; [|reflexivity].
    rewrite clearTimeout_pending. split; [tauto|].
    intros T. split; [exact T|].
    exact (throttleTimerId_other c id t D I T O).
  - destruct (throttleTimerId c); [reflexivity|].
    apply arm_throttle_pending, O.
Qed.

Lemma _throttledInitLookahead_stored (rebuilt : option Lookahead)
  (c : Controller) :
  maybeSeekOrSpeedupTimeoutId (_throttledInitLookahead rebuilt c)
  = maybeSeekOrSpeedupTimeoutId c.
Proof.
  unfold _throttledInitLookahead.
  destruct rebuilt, (throttleTimerId c); reflexivity.
Qed.

Lemma clearTimeout_keeps (id : Z) (t : Timer) (c : Controller) :
  In t (pendingTimers c) -> timerId t <> id ->
  In t (pendingTimers (clearTimeout id c)).
Proof.
  intros T N. simpl. apply filter_In. split; [exact T|].
  apply negb_true_iff, Z.eqb_neq, N.
Qed.

Lemma maybeSeekOrSpeedup_keeps (seekTo seekScheduledTo : float) (t : Timer)
  (c : Controller) :
  In t (pendingTimers c) ->
  In t (pendingTimers (maybeSeekOrSpeedup seekTo seekScheduledTo c)).
Proof.
  intros T.
  destruct (maybeSeekOrSpeedup_arms seekTo seekScheduledTo c)
    as (_ & [[-> _]|(x & -> & _)]); [exact T|].
  apply in_app_iff. auto.
Qed.

Lemma maybeScheduleMaybeSeekOrSpeedup_keeps (t : Timer) (c : Controller) :
  In t (pendingTimers c) -> timerId t <> maybeSeekOrSpeedupTimeoutId c ->
  In t (pendingTimers (maybeScheduleMaybeSeekOrSpeedup c)).
Proof.
  intros T N. rewrite maybeScheduleMaybeSeekOrSpeedup_eq.
  destruct (skipToSchedule c) as [[seekTo seekAt]|]; [|exact T].
  cbv zeta. destruct (_ <=? 0).
  - apply maybeSeekOrSpeedup_keeps, clearTimeout_keeps; assumption.
  - simpl. apply in_app_iff. left. apply filter_In. split; [exact T|].
    apply negb_true_iff, Z.eqb_neq, N.
Qed.

Lemma destroyAndThrottledInitLookahead_keeps (rebuilt : option Lookahead)
  (t : Timer) (c : Controller) :
  NoDup (map timerId (pendingTimers c)) ->
  isThrottleTimer t = false ->
  In t (pendingTimers c) ->
  In t (pendingTimers (destroyAndThrottledInitLookahead rebuilt c)).
Proof.
  intros D O T. unfold destroyAndThrottledInitLookahead.
  apply _throttledInitLookahead_pending; assumption.
Qed.

Lemma trailingInitLookahead_keeps (l : Lookahead) (t : Timer)
  (c : Controller) :
  NoDup (map timerId (pendingTimers c)) ->
  isThrottleTimer t = false ->
  In t (pendingTimers c) ->
  In t (pendingTimers (trailingInitLookahead l c)).
Proof.
  intros D O T. unfold trailingInitLookahead.
  destruct (throttleTimerId c) as [id|] eqn:I; [|exact T].
  change (pendingTimers (_initLookahead l ?x)) with (pendingTimers x).
  apply clearTimeout_keeps; [exact T|].
  exact (throttleTimerId_other c id t D I T O).
Qed.

Lemma restartThrottleTimer_keeps (remainingWaitMs : float) (t : Timer)
  (c : Controller) :
  NoDup (map timerId (pendingTimers c)) ->
  isThrottleTimer t = false ->
  In t (pendingTimers c) ->
  In t (pendingTimers (restartThrottleTimer remainingWaitMs c)).
Proof.
  intros D O T. unfold restartThrottleTimer.
  destruct (throttleTimerId c) as [id|] eqn:I; [|exact T].
  apply arm_throttle_pending; [exact O|].
  apply clearTimeout_keeps; [exact T|].
  exact (throttleTimerId_other c id t D I T O).
Qed.

Lemma _setStateAccordingToNewSettings_keeps
  (newSettings : ControllerSettings) (oldSettings : option ControllerSettings)
  (rebuilt : option Lookahead) (i : Instance) (t : Timer) :
  NoDup (map timerId (pendingTimers (controller i))) ->
  isThrottleTimer t = false ->
  In t (pendingTimers (controller i)) ->
  timerId t <> maybeSeekOrSpeedupTimeoutId (controller i) ->
  In t (pendingTimers
          (controller
             (_setStateAccordingToNewSettings newSettings oldSettings
                rebuilt i))).
Proof.
  intros D O T S. unfold Lifecycle._setStateAccordingToNewSettings.
  set (i3 := onController _ (setDefaultPlaybackRateAndRememberIt _ _)).
  assert (T3 : In t (pendingTimers (controller i3))) by exact T.
  assert (S3 : timerId t <> maybeSeekOrSpeedupTimeoutId (controller i3))
    by exact S.
  assert (D3 : NoDup (map timerId (pendingTimers (controller i3))))
    by exact D.
  clearbody i3.
  set (i4 := if lookaheadSettingsChanged _ _ then _ else _).
  assert (H4 : In t (pendingTimers (controller i4))
               /\ timerId t <> maybeSeekOrSpeedupTimeoutId (controller i4)).
  { unfold i4. destruct (lookaheadSettingsChanged _ _); [|auto].
    cbn [controller onController]. split.
    - apply destroyAndThrottledInitLookahead_keeps; assumption.
    - unfold destroyAndThrottledInitLookahead.
      rewrite _throttledInitLookahead_stored. exact S3. }
  clearbody i4. destruct H4 as [T4 S4].
  destruct (soundedSpeedChanged _ _); [|exact T4]. simpl.
  apply maybeScheduleMaybeSeekOrSpeedup_keeps.
  - apply clearTimeout_keeps; assumption.
  - exact S4.
Qed.

(** X5. A pending timer of the controller that will not call
    [maybeSeekOrSpeedup] (the timer that ends a speedup, for one) is still
    pending after any event but its own firing: no position update, seek,
    source change or settings update cancels it, and the throttle around
    [_initLookahead] clears no timer but its own. *)
Theorem other_timers_are_never_cancelled (e : Event) (i : Instance)
  (t : Timer) :
  timersInOrder (controller i) ->
  In t (pendingTimers (controller i)) ->
  isDecisionTimer t = false ->
  isThrottleTimer t = false ->
  (forall t', e = reaction (onTimer t') -> timerId t' <> timerId t) ->
  In t (pendingTimers (controller (handle e i))).
Proof.
  intros H T D O N.
  assert (S : timerId t <> maybeSeekOrSpeedupTimeoutId (controller i)).
  { intros E. apply (decision_timer_stored _ H t T) in E. congruence. }
  pose proof (handles_distinct _ H) as U.
  destruct e as [r|el|rebuilt now| |l|newSettings rebuilt| |w].
  - simpl. destruct r as [|t'|ev|n]; simpl.
    + apply maybeScheduleMaybeSeekOrSpeedup_keeps; assumption.
    + specialize (N t' eq_refl). unfold fireTimer.
      assert (T' : In t (pendingTimers (clearTimeout (timerId t')
                                          (controller i))))
        by (apply clearTimeout_keeps; auto).
      destruct (timerHandler t'); simpl in *;
        auto using maybeSeekOrSpeedup_keeps.
    + destruct (handleEvent ev _); exact T.
    + exact T.
  - exact T.
  - exact (destroyAndThrottledInitLookahead_keeps rebuilt t _ U O T).
  - exact T.
  - exact (trailingInitLookahead_keeps l t _ U O T).
  - simpl. unfold updateSettingsAndMaybeCreateNewInstance.
    destruct (initialized i);
      [apply _setStateAccordingToNewSettings_keeps; assumption|exact T].
  - unfold Lifecycle.handle, finishInit. cbv zeta. cbn [controller].
    apply _setStateAccordingToNewSettings_keeps;
      destruct (_pendingSettingsUpdates i); assumption.
  - exact (restartThrottleTimer_keeps w t _ U O T).
Qed.

End Engine.

(** X4 at work: the second position update replaces the timer of the
    first. *)
Lemma one_decision_pending_at_most_witness :
  (length
     (filter isDecisionTimer
        (pendingTimers
           (controller
              (run false false speedUnchanged twoUpdates
                 (initializedWith silenceLater)))))
   <= 1)%nat
  /\ pendingTimers
       (controller
          (run false false speedUnchanged twoUpdates
             (initializedWith silenceLater)))
     = [mkTimer 2 (maybeSeekOrSpeedupBounded 20 10) 4750].
Proof.
  split; [|vm_compute; reflexivity].
  apply (one_decision_pending_at_most false false speedUnchanged twoUpdates
           (initializedWith silenceLater));
    reflexivity.
Defined.

(** X5 at work: a speedup is under way when the sounded speed is set to
    2; the timer that ends the speedup is still pending. *)
Lemma other_timers_are_never_cancelled_witness :
  In theRestoration
    (pendingTimers
       (controller
          (run false false speedUnchanged [reaction onTimeupdate]
             (initializedWith silenceAhead))))
  /\ In theRestoration
       (pendingTimers
          (controller
             (handle false false speedUnchanged
                (settingsUpdate fasterSettings None)
                (run false false speedUnchanged [reaction onTimeupdate]
                   (initializedWith silenceAhead))))).
Proof.
  assert (T : In theRestoration
    (pendingTimers
       (controller
          (run false false speedUnchanged [reaction onTimeupdate]
             (initializedWith silenceAhead))))).
  { left. vm_compute. reflexivity. }
  split; [exact T|].
  apply other_timers_are_never_cancelled.
  - apply run_inOrder, empty_table_inOrder; reflexivity.
  - exact T.
  - reflexivity.
  - reflexivity.
  - intros t' E. discriminate E.
Defined.

End TimerFacts.

(** ** Source changes and settings *)

Module LifecycleFacts.
Import Prophet ProphetSpec Controller EngineSpec Lifecycle Scenarios
  LifecycleScenarios ControllerFacts ProphetFacts.
Local Open Scope float_scope.

Section Engine.

Variable browserHasAudioDesyncBug : bool.
Variable IS_DEV_MODE : bool.
Variable maybeClosestNonNormalSpeed : float -> float -> float.

Abbreviation whatToDo := (whatToDo browserHasAudioDesyncBug IS_DEV_MODE).
Abbreviation computeWhatToDo :=
  (computeWhatToDo browserHasAudioDesyncBug IS_DEV_MODE).
Abbreviation maybeSeekOrSpeedup :=
  (maybeSeekOrSpeedup browserHasAudioDesyncBug IS_DEV_MODE
     maybeClosestNonNormalSpeed).
Abbreviation maybeScheduleMaybeSeekOrSpeedup :=
  (maybeScheduleMaybeSeekOrSpeedup browserHasAudioDesyncBug IS_DEV_MODE
     maybeClosestNonNormalSpeed).
Abbreviation react :=
  (react browserHasAudioDesyncBug IS_DEV_MODE maybeClosestNonNormalSpeed).
Abbreviation handle :=
  (handle browserHasAudioDesyncBug IS_DEV_MODE maybeClosestNonNormalSpeed).
Abbreviation run :=
  (run browserHasAudioDesyncBug IS_DEV_MODE maybeClosestNonNormalSpeed).
Abbreviation _setStateAccordingToNewSettings :=
  (_setStateAccordingToNewSettings browserHasAudioDesyncBug IS_DEV_MODE
     maybeClosestNonNormalSpeed).
Abbreviation updateSettingsAndMaybeCreateNewInstance :=
  (updateSettingsAndMaybeCreateNewInstance browserHasAudioDesyncBug
     IS_DEV_MODE maybeClosestNonNormalSpeed).
Abbreviation finishInit :=
  (finishInit browserHasAudioDesyncBug IS_DEV_MODE maybeClosestNonNormalSpeed).

(** *** What the controller's reactions leave alone *)

Lemma maybeSeekOrSpeedup_leaves (seekTo seekScheduledTo : float)
  (c : Controller) :
  let c' := maybeSeekOrSpeedup seekTo seekScheduledTo c in
  paused (element c') = paused (element c)
  /\ settings c' = settings c
  /\ lookahead c' = lookahead c
  /\ seekDurationProphet c' = seekDurationProphet c
  /\ audioContext_currentTime c' = audioContext_currentTime c.
Proof.
  cbv zeta. unfold Controller.maybeSeekOrSpeedup.
  destruct (mustCancelSeek seekScheduledTo c); [auto|].
  destruct (computeWhatToDo_frame browserHasAudioDesyncBug IS_DEV_MODE
              seekTo c) as (probes & E & _).
  destruct (computeWhatToDo seekTo c) as [v c1]. simpl in E. subst c1.
  destruct v; cbv zeta.
  - simpl. auto.
  - simpl. auto.
  - match goal with
    | |- context [onSilenceSkippingSeek ?a ?b ?x] =>
        destruct (onSilenceSkippingSeek_frame a b x) as (t & ->)
    end.
    simpl. auto.
Qed.

Lemma maybeScheduleMaybeSeekOrSpeedup_leaves (c : Controller) :
  let c' := maybeScheduleMaybeSeekOrSpeedup c in
  paused (element c') = paused (element c)
  /\ settings c' = settings c
  /\ lookahead c' = lookahead c
  /\ seekDurationProphet c' = seekDurationProphet c
  /\ audioContext_currentTime c' = audioContext_currentTime c.
Proof.
  cbv zeta. rewrite maybeScheduleMaybeSeekOrSpeedup_eq.
  destruct (skipToSchedule c) as [[seekTo seekAt]|]; [|auto].
  cbv zeta. destruct (_ <=? 0); [|simpl; auto].
  apply (maybeSeekOrSpeedup_leaves seekTo seekAt
           (clearTimeout (maybeSeekOrSpeedupTimeoutId c) c)).
Qed.


(** *** Between two sources *)

Lemma react_without_lookahead (r : Reaction) (c : Controller) :
  lookahead c = None -> firesNoTimer r ->
  let c' := react r c in
  lookahead c' = None
  /\ currentTime (element c') = currentTime (element c)
  /\ pendingTimers c' = pendingTimers c
  /\ _didNotDoDesyncCorrectionForNSpeedSwitches c'
     = _didNotDoDesyncCorrectionForNSpeedSwitches c.
Proof.
  intros L N. cbv zeta. destruct r as [|t|e|n]; simpl in *.
  - unfold Controller.maybeScheduleMaybeSeekOrSpeedup. rewrite L. auto.
  - contradiction.
  - destruct (handleEvent e _); simpl; auto.
  - auto.
Qed.

(** X8. Once the old source is gone (['emptied']), and until a lookahead
    is built again, no position update, seek event or speed switch makes
    the controller seek, arm or cancel a timer, or count a speedup: the
    ranges found in the old source are not applied to the new one. *)
Theorem old_ranges_are_not_applied_to_a_new_source (rs : list Reaction)
  (c : Controller) :
  Forall firesNoTimer rs ->
  let c' := fold_left (fun c r => react r c) rs (onOldSrcGone c) in
  lookahead c' = None
  /\ currentTime (element c') = currentTime (element c)
  /\ pendingTimers c' = pendingTimers c
  /\ _didNotDoDesyncCorrectionForNSpeedSwitches c'
     = _didNotDoDesyncCorrectionForNSpeedSwitches c.
Proof.
  intros N. cbv zeta.
  assert (G : forall c0, lookahead c0 = None ->
    let c' := fold_left (fun c r => react r c) rs c0 in
    lookahead c' = None
    /\ currentTime (element c') = currentTime (element c0)
    /\ pendingTimers c' = pendingTimers c0
    /\ _didNotDoDesyncCorrectionForNSpeedSwitches c'
       = _didNotDoDesyncCorrectionForNSpeedSwitches c0).
  { induction N as [|r rs R N IH]; intros c0 L; simpl; [auto|].
    destruct (react_without_lookahead r c0 L R) as (L1 & P1 & T1 & B1).
    destruct (IH _ L1) as (L2 & P2 & T2 & B2).
    rewrite P2, T2, B2. auto. }
  apply (G (onOldSrcGone c)). reflexivity.
Qed.

(** *** A new source *)

Lemma seek_events_reach_the_prophet (es : list SeekEvent) : forall c p,
  handleEvents es (seekDurationProphet c) = Some p ->
  seekDurationProphet
    (fold_left (fun c e => react (onSeekEvent e) c) es c) = p.
Proof.
  induction es as [|e es IH]; intros c p; simpl.
  - congruence.
  - destruct (handleEvent e (seekDurationProphet c)) as [p1|] eqn:E;
      [|discriminate].
    intros H. apply IH. exact H.
Qed.

(** X9. A new source (['loadstart']) starts the prophet afresh: whatever
    seeks were timed on the old source, the estimate is 150 ms again, and
    after any seek events on the new source it is the mean of the last
    five samples at most taken since, the first of them timed from the
    ['loadstart'] if no ['seeking'] came before it. *)
Theorem new_source_forgets_seek_durations (rebuilt : option Lookahead)
  (now : float) (c : Controller) (es : list SeekEvent) :
  let c' :=
    fold_left (fun c e => react (onSeekEvent e) c) es
      (onNewSrc rebuilt now c) in
  nextSeekDurationMs (seekDurationProphet c')
  = currentEstimateMs (observedDurations now es)
  /\ history (seekDurationProphet c') = lastN 5 (observedDurations now es).
Proof.
  cbv zeta.
  destruct (handleEvents_tracks es (create now) [] (tracks_create now))
    as (p & E & Hh & Ha).
  rewrite (seek_events_reach_the_prophet es (onNewSrc rebuilt now c) p).
  - simpl in *. auto.
  - destruct rebuilt; exact E.
Qed.

(** *** Settings *)

(** A call of [destroyAndThrottledInitLookahead] touches the lookahead
    and the throttle's timer, nothing else of the controller. *)
Lemma destroyAndThrottledInitLookahead_frame (rebuilt : option Lookahead)
  (c : Controller) :
  let c' := destroyAndThrottledInitLookahead rebuilt c in
  settings c' = settings c
  /\ lookahead c' = rebuilt
  /\ element c' = element c
  /\ maybeSeekOrSpeedupTimeoutId c' = maybeSeekOrSpeedupTimeoutId c
  /\ seekDurationProphet c' = seekDurationProphet c
  /\ _didNotDoDesyncCorrectionForNSpeedSwitches c'
     = _didNotDoDesyncCorrectionForNSpeedSwitches c.
Proof.
  cbv zeta. unfold destroyAndThrottledInitLookahead, _throttledInitLookahead.
  destruct rebuilt as [l|];
    destruct (throttleTimerId (set_lookahead None c));
    repeat split; reflexivity.
Qed.

Lemma last_cons {A : Type} (a d : A) (l : list A) :
  last (a :: l) d = last l a.
Proof.
  revert a d. induction l as [|b l IH]; intros a d; [reflexivity|].
  change (last (a :: b :: l) d) with (last (b :: l) d).
  rewrite (IH b d), (IH b a). reflexivity.
Qed.

Lemma updates_before_init (updates : list (ControllerSettings * option Lookahead)) :
  forall i, initialized i = false ->
  fold_left
    (fun i u => updateSettingsAndMaybeCreateNewInstance (fst u) (snd u) i)
    updates i
  = mkInstance (controller i) (element_defaultPlaybackRate i) false
      (lastUpdate updates (_pendingSettingsUpdates i)).
Proof.
  unfold lastUpdate.
  induction updates as [|u us IH]; intros i I; simpl fold_left.
  - destruct i; simpl in *; subst; reflexivity.
  - unfold Lifecycle.updateSettingsAndMaybeCreateNewInstance at 2.
    rewrite I, IH by reflexivity. simpl map. rewrite last_cons. reflexivity.
Qed.

Lemma _setStateAccordingToNewSettings_settings
  (newSettings : ControllerSettings) (oldSettings : option ControllerSettings)
  (rebuilt : option Lookahead) (i : Instance) :
  let i' :=
    _setStateAccordingToNewSettings newSettings oldSettings rebuilt i in
  settings (controller i') = newSettings
  /\ element_defaultPlaybackRate i'
     = maybeClosestNonNormalSpeed (soundedSpeed newSettings)
         (volumeThreshold newSettings)
  /\ initialized i' = initialized i
  /\ _pendingSettingsUpdates i' = _pendingSettingsUpdates i
  /\ lookahead (controller i')
     = (if lookaheadSettingsChanged newSettings oldSettings then rebuilt
        else lookahead (controller i)).
Proof.
  cbv zeta. unfold Lifecycle._setStateAccordingToNewSettings.
  set (i3 := onController _ (setDefaultPlaybackRateAndRememberIt _ _)).
  assert (H3 : settings (controller i3) = newSettings
               /\ element_defaultPlaybackRate i3
                  = maybeClosestNonNormalSpeed (soundedSpeed newSettings)
                      (volumeThreshold newSettings)
               /\ initialized i3 = initialized i
               /\ _pendingSettingsUpdates i3 = _pendingSettingsUpdates i
               /\ lookahead (controller i3) = lookahead (controller i))
    by (repeat split; reflexivity).
  clearbody i3. destruct H3 as (S3 & R3 & I3 & P3 & L3).
  set (i4 := if lookaheadSettingsChanged _ _ then _ else _).
  assert (H4 : settings (controller i4) = newSettings
               /\ element_defaultPlaybackRate i4
                  = maybeClosestNonNormalSpeed (soundedSpeed newSettings)
                      (volumeThreshold newSettings)
               /\ initialized i4 = initialized i
               /\ _pendingSettingsUpdates i4 = _pendingSettingsUpdates i
               /\ lookahead (controller i4)
                  = (if lookaheadSettingsChanged newSettings oldSettings
                     then rebuilt else lookahead (controller i))).
  { unfold i4. destruct (lookaheadSettingsChanged _ _); [|auto].
    cbn [controller onController element_defaultPlaybackRate initialized
         _pendingSettingsUpdates].
    destruct (destroyAndThrottledInitLookahead_frame rebuilt (controller i3))
      as (-> & -> & _). auto. }
  clearbody i4. destruct H4 as (S4 & R4 & I4 & P4 & L4).
  destruct (soundedSpeedChanged _ _); [|auto].
  cbn [controller onController element_defaultPlaybackRate initialized
       _pendingSettingsUpdates].
  match goal with
  | |- context [maybeScheduleMaybeSeekOrSpeedup ?c] =>
      destruct (maybeScheduleMaybeSeekOrSpeedup_leaves c)
        as (_ & -> & -> & _)
  end.
  auto.
Qed.

(** X10. Settings updates made before [init] has ended touch nothing but
    the one pending update, each replacing the one before; when [init]
    ends the controller is initialized, nothing is pending any more, and
    the settings in force are those of the last update (those the
    controller was given if there was none), the default playback rate
    being the rate for their sounded speed. *)
Theorem settings_wait_for_the_end_of_init
  (updates : list (ControllerSettings * option Lookahead)) (i : Instance) :
  initialized i = false ->
  let queued :=
    fold_left
      (fun i u => updateSettingsAndMaybeCreateNewInstance (fst u) (snd u) i)
      updates i in
  let inForce :=
    match lastUpdate updates (_pendingSettingsUpdates i) with
    | Some s => s
    | None => settings (controller i)
    end in
  controller queued = controller i
  /\ element_defaultPlaybackRate queued = element_defaultPlaybackRate i
  /\ initialized queued = false
  /\ _pendingSettingsUpdates queued
     = lastUpdate updates (_pendingSettingsUpdates i)
  /\ initialized (finishInit queued) = true
  /\ _pendingSettingsUpdates (finishInit queued) = None
  /\ settings (controller (finishInit queued)) = inForce
  /\ element_defaultPlaybackRate (finishInit queued)
     = maybeClosestNonNormalSpeed (soundedSpeed inForce)
         (volumeThreshold inForce).
Proof.
  intros I. cbv zeta. rewrite (updates_before_init updates i I).
  repeat (split; [reflexivity|]).
  unfold Lifecycle.finishInit. cbv zeta.
  cbn [controller element_defaultPlaybackRate initialized
       _pendingSettingsUpdates].
  match goal with
  | |- context [_setStateAccordingToNewSettings ?s ?o ?r ?x] =>
      destruct (_setStateAccordingToNewSettings_settings s o r x)
        as (S & D & N & _)
  end.
  cbv zeta in S, D, N. rewrite S, D, N.
  destruct (lastUpdate updates (_pendingSettingsUpdates i)); simpl; auto.
Qed.

Lemma maybeSeekOrSpeedup_adds_above (seekTo seekScheduledTo : float)
  (t : Timer) (c : Controller) :
  In t (pendingTimers (maybeSeekOrSpeedup seekTo seekScheduledTo c)) ->
  In t (pendingTimers c) \/ timerId t = nextTimerHandle c.
Proof.
  destruct (TimerFacts.maybeSeekOrSpeedup_arms browserHasAudioDesyncBug
              IS_DEV_MODE maybeClosestNonNormalSpeed seekTo seekScheduledTo c)
    as (_ & [[-> _]|(x & -> & _ & I & _)]); [auto|].
  intros T. apply in_app_iff in T. destruct T as [T|[<-|[]]]; auto.
Qed.

Lemma reschedule_drops_stored (t : Timer) (c : Controller) :
  In t (pendingTimers
          (maybeScheduleMaybeSeekOrSpeedup
             (clearTimeout (maybeSeekOrSpeedupTimeoutId c) c))) ->
  (In t (pendingTimers c) /\ timerId t <> maybeSeekOrSpeedupTimeoutId c)
  \/ timerId t = nextTimerHandle c.
Proof.
  assert (F : forall x,
    In x (pendingTimers (clearTimeout (maybeSeekOrSpeedupTimeoutId c) c)) ->
    In x (pendingTimers c) /\ timerId x <> maybeSeekOrSpeedupTimeoutId c).
  { intros x X. simpl in X. apply filter_In in X. destruct X as [X N].
    apply negb_true_iff, Z.eqb_neq in N. auto. }
  rewrite maybeScheduleMaybeSeekOrSpeedup_eq.
  destruct (skipToSchedule _) as [[seekTo seekAt]|]; [|auto].
  cbv zeta. destruct (_ <=? 0).
  - intros T. apply maybeSeekOrSpeedup_adds_above in T.
    destruct T as [T|T]; [|auto].
    simpl in T. apply filter_In in T. destruct T as [T _]. auto.
  - simpl. intros T. apply in_app_iff in T. destruct T as [T|[<-|[]]]; [|auto].
    apply filter_In in T. destruct T as [T _]. auto.
Qed.

Lemma throttle_timer_is_no_decision_timer (t : Timer) :
  isThrottleTimer t = true -> isDecisionTimer t = false.
Proof.
  unfold isThrottleTimer, isDecisionTimer.
  destruct (timerHandler t); congruence.
Qed.

(** After a call of the throttled [_initLookahead] the throttle's timer
    is pending. *)
Lemma _throttledInitLookahead_arms (rebuilt : option Lookahead)
  (c : Controller) :
  exists t, In t (pendingTimers (_throttledInitLookahead rebuilt c))
            /\ isThrottleTimer t = true.
Proof.
  unfold _throttledInitLookahead. destruct rebuilt as [l|]; cbv zeta.
  - eexists.
    split; [simpl; apply in_app_iff; right; left; reflexivity|reflexivity].
  - destruct (throttleTimerId c) as [id|] eqn:I.
    + destruct (TimerFacts.throttleTimerId_pending c id I)
        as (t & T & O & _).
      exists t. auto.
    + eexists.
      split; [simpl; apply in_app_iff; right; left; reflexivity|reflexivity].
Qed.

(** The controller after [_setStateAccordingToNewSettings], step by
    step. *)
Lemma _setStateAccordingToNewSettings_controller
  (newSettings : ControllerSettings) (oldSettings : option ControllerSettings)
  (rebuilt : option Lookahead) (i : Instance) :
  controller
    (_setStateAccordingToNewSettings newSettings oldSettings rebuilt i)
  = let c3 :=
      _setSpeedAndLog maybeClosestNonNormalSpeed SOUNDED
        (set_settings newSettings (controller i)) in
    let c4 :=
      if lookaheadSettingsChanged newSettings oldSettings
      then destroyAndThrottledInitLookahead rebuilt c3 else c3 in
    if soundedSpeedChanged newSettings oldSettings
    then maybeScheduleMaybeSeekOrSpeedup
           (clearTimeout (maybeSeekOrSpeedupTimeoutId c4) c4)
    else c4.
Proof.
  unfold Lifecycle._setStateAccordingToNewSettings. cbv zeta.
  destruct (soundedSpeedChanged _ _), (lookaheadSettingsChanged _ _);
    reflexivity.
Qed.

(** X11. A settings update on an initialized controller puts the new
    settings in force, sets the default playback rate to the rate for the
    new sounded speed, and replaces the lookahead exactly when the volume
    threshold, a margin or the opposite-day flag changed; the throttle's
    timer is then pending. If the sounded speed is the same, the playback
    rate is set to the rate for it (a speedup under way is cut short),
    position and stored handle are left alone, and so are the timers of
    the controller: the table changes by the throttle's timer at most. If
    it differs, the timers under the stored handle are cancelled, whether
    or not a range can be scheduled anew, and no other timer of the
    controller is. *)
Theorem settings_update_on_a_running_controller
  (newSettings : ControllerSettings) (rebuilt : option Lookahead)
  (i : Instance) :
  initialized i = true ->
  let old := settings (controller i) in
  let i' := updateSettingsAndMaybeCreateNewInstance newSettings rebuilt i in
  settings (controller i') = newSettings
  /\ element_defaultPlaybackRate i'
     = maybeClosestNonNormalSpeed (soundedSpeed newSettings)
         (volumeThreshold newSettings)
  /\ lookahead (controller i')
     = (if lookaheadSettingsChanged newSettings (Some old) then rebuilt
        else lookahead (controller i))
  /\ (strictNotEqual (soundedSpeed newSettings) (soundedSpeed old) = false ->
      playbackRate (element (controller i'))
      = maybeClosestNonNormalSpeed (soundedSpeed newSettings)
          (volumeThreshold newSettings)
      /\ currentTime (element (controller i'))
         = currentTime (element (controller i))
      /\ maybeSeekOrSpeedupTimeoutId (controller i')
         = maybeSeekOrSpeedupTimeoutId (controller i)
      /\ (lookaheadSettingsChanged newSettings (Some old) = false ->
          pendingTimers (controller i') = pendingTimers (controller i)))
  /\ (timersInOrder (controller i) ->
      (lookaheadSettingsChanged newSettings (Some old) = true ->
       exists t, In t (pendingTimers (controller i'))
                 /\ isThrottleTimer t = true)
      /\ (strictNotEqual (soundedSpeed newSettings) (soundedSpeed old)
          = false ->
          forall t, isThrottleTimer t = false ->
            (In t (pendingTimers (controller i'))
             <-> In t (pendingTimers (controller i))))
      /\ (strictNotEqual (soundedSpeed newSettings) (soundedSpeed old)
          = true ->
          forall t, In t (pendingTimers (controller i)) ->
            isThrottleTimer t = false ->
            (In t (pendingTimers (controller i'))
             <-> timerId t <> maybeSeekOrSpeedupTimeoutId (controller i)))).
Proof.
  intros I. cbv zeta.
  unfold Lifecycle.updateSettingsAndMaybeCreateNewInstance. rewrite I.
  destruct (_setStateAccordingToNewSettings_settings newSettings
              (Some (settings (controller i))) rebuilt i)
    as (S & D & _ & _ & L).
  cbv zeta in S, D, L.
  split; [exact S|]. split; [exact D|]. split; [exact L|].
  rewrite _setStateAccordingToNewSettings_controller. cbv zeta.
  unfold soundedSpeedChanged.
  set (c3 := _setSpeedAndLog maybeClosestNonNormalSpeed SOUNDED
               (set_settings newSettings (controller i))).
  set (c4 := if lookaheadSettingsChanged _ _ then _ else c3).
  assert (P4 : forall t, NoDup (map timerId (pendingTimers (controller i))) ->
    isThrottleTimer t = false ->
    (In t (pendingTimers c4) <-> In t (pendingTimers (controller i)))).
  { intros t U O. unfold c4. destruct (lookaheadSettingsChanged _ _);
      [|reflexivity].
    exact (TimerFacts._throttledInitLookahead_pending rebuilt t
             (set_lookahead None c3) U O). }
  assert (S4 : maybeSeekOrSpeedupTimeoutId c4
               = maybeSeekOrSpeedupTimeoutId (controller i)).
  { unfold c4. destruct (lookaheadSettingsChanged _ _); [|reflexivity].
    unfold destroyAndThrottledInitLookahead.
    rewrite TimerFacts._throttledInitLookahead_stored. reflexivity. }
  assert (H4 : timersInOrder (controller i) -> timersInOrder c4).
  { intros H. assert (H3 : timersInOrder c3) by TimerFacts.same_timers H.
    unfold c4. destruct (lookaheadSettingsChanged _ _); [|exact H3].
    apply TimerFacts.destroyAndThrottledInitLookahead_inOrder, H3. }
  assert (A4 : lookaheadSettingsChanged newSettings
                 (Some (settings (controller i))) = true ->
               exists t, In t (pendingTimers c4)
                         /\ isThrottleTimer t = true).
  { intros C. unfold c4. rewrite C.
    apply _throttledInitLookahead_arms. }
  split.
  - intros E. rewrite E. split; [|split; [|split]].
    + unfold c4. destruct (lookaheadSettingsChanged _ _); [|reflexivity].
      destruct (destroyAndThrottledInitLookahead_frame rebuilt c3)
        as (_ & _ & -> & _).
      reflexivity.
    + unfold c4. destruct (lookaheadSettingsChanged _ _); [|reflexivity].
      destruct (destroyAndThrottledInitLookahead_frame rebuilt c3)
        as (_ & _ & -> & _).
      reflexivity.
    + exact S4.
    + intros C. unfold c4. rewrite C. reflexivity.
  - intros H. specialize (H4 H). pose proof (handles_distinct _ H) as U.
    split; [|split].
    + intros C. destruct (A4 C) as (t & T & O).
      exists t. split; [|exact O].
      destruct (strictNotEqual _ _); [|exact T].
      assert (N : timerId t <> maybeSeekOrSpeedupTimeoutId c4).
      { intros E. apply (decision_timer_stored _ H4 t T) in E.
        rewrite (throttle_timer_is_no_decision_timer t O) in E.
        discriminate E. }
      apply TimerFacts.maybeScheduleMaybeSeekOrSpeedup_keeps;
        [apply TimerFacts.clearTimeout_keeps; assumption|exact N].
    + intros E t O. rewrite E. exact (P4 t U O).
    + intros E t T O. rewrite E. apply (P4 t U O) in T. rewrite <- S4.
      split.
      * intros T'. apply reschedule_drops_stored in T'.
        destruct T' as [[_ N]|N]; [exact N|].
        pose proof (handles_fresh _ H4) as F. rewrite Forall_forall in F.
        specialize (F t T). lia.
      * intros N.
        apply TimerFacts.maybeScheduleMaybeSeekOrSpeedup_keeps;
          [apply TimerFacts.clearTimeout_keeps; assumption|exact N].
Qed.

End Engine.

(** X8 at work: with the source of [silenceAhead] gone, a position
    update, a seek and a switch to the silence speed leave position and
    timers as they were. *)
Lemma old_ranges_are_not_applied_to_a_new_source_witness :
  Forall firesNoTimer betweenSources
  /\ currentTime
       (element
          (fold_left (fun c r => react false false speedUnchanged r c)
             betweenSources (onOldSrcGone silenceAhead)))
     = 10
  /\ pendingTimers
       (fold_left (fun c r => react false false speedUnchanged r c)
          betweenSources (onOldSrcGone silenceAhead))
     = [].
Proof.
  assert (N : Forall firesNoTimer betweenSources)
    by (repeat constructor).
  split; [exact N|].
  destruct (old_ranges_are_not_applied_to_a_new_source false false
              speedUnchanged betweenSources silenceAhead N)
    as (_ & P & T & _).
  split; [exact P | exact T].
Defined.

(** X10 at work: of two updates made before [init] ends, the second is
    in force afterwards. *)
Lemma settings_wait_for_the_end_of_init_witness :
  initialized (uninitializedWith silenceAhead) = false
  /\ settings
       (controller
          (finishInit false false speedUnchanged
             (fold_left
                (fun i u =>
                   updateSettingsAndMaybeCreateNewInstance false false
                     speedUnchanged (fst u) (snd u) i)
                earlyUpdates (uninitializedWith silenceAhead))))
     = fasterInSilence.
Proof.
  split; [reflexivity|].
  destruct (settings_wait_for_the_end_of_init false false speedUnchanged
              earlyUpdates (uninitializedWith silenceAhead) eq_refl)
    as (_ & _ & _ & _ & _ & _ & S & _).
  exact S.
Defined.

(** X11 at work. A speedup is under way at rate 4 when the volume
    threshold is raised: playback is back at rate 1, the timer that ends
    the speedup is still pending, and the throttle has armed its own.
    A decision is armed when the sounded speed is set to 2: its timer is
    cancelled. *)
Lemma settings_update_on_a_running_controller_witness :
  playbackRate
    (element
       (controller
          (updateSettingsAndMaybeCreateNewInstance false false
             speedUnchanged higherThreshold (Some rangesAnew)
             speedupUnderWay)))
  = 1
  /\ In theRestoration
       (pendingTimers
          (controller
             (updateSettingsAndMaybeCreateNewInstance false false
                speedUnchanged higherThreshold (Some rangesAnew)
                speedupUnderWay)))
  /\ pendingTimers
       (controller
          (updateSettingsAndMaybeCreateNewInstance false false
             speedUnchanged higherThreshold (Some rangesAnew)
             speedupUnderWay))
     = [theRestoration; theThrottleTimer]
  /\ In theArmedTimer (pendingTimers (controller decisionArmed))
  /\ ~ In theArmedTimer
         (pendingTimers
            (controller
               (updateSettingsAndMaybeCreateNewInstance false false
                  speedUnchanged fasterSettings None decisionArmed))).
Proof.
  assert (H1 : timersInOrder (controller speedupUnderWay))
    by (apply TimerFacts.run_inOrder, TimerFacts.empty_table_inOrder;
        reflexivity).
  assert (H2 : timersInOrder (controller decisionArmed))
    by (apply TimerFacts.run_inOrder, TimerFacts.empty_table_inOrder;
        reflexivity).
  assert (T2 : In theArmedTimer (pendingTimers (controller decisionArmed)))
    by (left; vm_compute; reflexivity).
  destruct (settings_update_on_a_running_controller false false
              speedUnchanged higherThreshold (Some rangesAnew)
              speedupUnderWay eq_refl)
    as (_ & _ & _ & U & V).
  destruct (U eq_refl) as (R & _).
  destruct (V H1) as (_ & K & _).
  destruct (settings_update_on_a_running_controller false false
              speedUnchanged fasterSettings None decisionArmed eq_refl)
    as (_ & _ & _ & _ & V').
  destruct (V' H2) as (_ & _ & C).
  split; [exact R|].
  split; [apply (K eq_refl theRestoration eq_refl); left; vm_compute;
          reflexivity|].
  split; [vm_compute; reflexivity|].
  split; [exact T2|].
  intros X. apply (C eq_refl theArmedTimer T2 eq_refl) in X.
  apply X. reflexivity.
Defined.

End LifecycleFacts.
